(** * modfile: a modified copy of a file, as cycles of copied, inserted and
    deleted runs

    Shallow embedding of [tools/modfile.py].  The generator
    [ModifiedFileData] reads the original content sequentially, emits runs of
    copied bytes followed by runs of bytes taken from [/dev/urandom], and skips
    runs of the original; the run lengths come from a seeded
    [random.Random].  The two byte sources are modelled as the bytes still to
    be read; the pseudo-random generator and Python's floats are kept abstract
    (Section variables), so every result holds for any sampler. *)

From Stdlib Require Import ZArith List String Ascii Bool Lia QArith.
From Stdlib Require Import DecimalString DecimalZ DecimalPos.
Import ListNotations.
Local Open Scope Z_scope.

(** ** Python values and exceptions *)

Inductive exn : Type :=
| ZeroDivisionError
| ValueError
| IndexError
| OverflowError
| SystemExit (code : Z).

Inductive outcome (A : Type) : Type :=
| Return (a : A)
| Raise (e : exn).
Arguments Return {A} a.
Arguments Raise {A} e.

Definition bind {A B} (m : outcome A) (k : A -> outcome B) : outcome B :=
  match m with
  | Return a => k a
  | Raise e => Raise e
  end.

Notation "x <- m ;; k" := (bind m (fun x => k))
  (at level 61, m at next level, right associativity).

(** Truth value of a Python integer: [0] is false. *)
Definition truthy (z : Z) : bool := negb (z =? 0).

Definition bytes := list Byte.byte.

(** [len(b)] *)
Definition len (b : bytes) : Z := Z.of_nat (List.length b).

(** Truth value of a bytes object: the empty one is false. *)
Definition nonempty (b : bytes) : bool :=
  match b with
  | [] => false
  | _ :: _ => true
  end.

(** ** Sequential byte sources

    A file object that is only ever read sequentially is the list of bytes
    not yet read.  [read f size] follows [io.BufferedIOBase.read]: up to
    [size] bytes, fewer at end of file, and everything that is left when
    [size] is [-1].  It returns the bytes and the advanced source.  The
    sizes that a reader refuses are the subject of [read_check] below; a
    source is a finite list, so a device without an end is represented by
    the bytes of it that a run can reach. *)

Definition stream := list Byte.byte.

Definition read (f : stream) (size : Z) : bytes * stream :=
  if size <? 0 then (f, [])
  else (firstn (Z.to_nat size) f, skipn (Z.to_nat size) f).

(** [subseq l1 l2]: [l1] is [l2] with some elements left out, the others
    in their order. *)
Inductive subseq {A : Type} : list A -> list A -> Prop :=
| subseq_nil : subseq [] []
| subseq_skip (x : A) (l1 l2 : list A) :
    subseq l1 l2 -> subseq l1 (x :: l2)
| subseq_keep (x : A) (l1 l2 : list A) :
    subseq l1 l2 -> subseq (x :: l1) (x :: l2).

(** *** What the interpreter refuses

    [read] above is what a read returns when it returns.  The buffered
    readers that the program reads from ([sys.stdin.buffer] and
    [open('/dev/urandom','rb')]) first check the size: one that does not
    fit a signed 64-bit index raises [OverflowError], and one below [-1]
    raises [ValueError].  A size of [-1] asks for everything up to the end
    of the file, which [/dev/urandom] does not have; the statements that
    speak of a run that ends keep the sizes at 0 or above.  Memory is not
    modelled: a size within these bounds is taken to be one the reader can
    serve. *)

Definition ssize_max : Z := 2 ^ 63 - 1.

Definition read_check (size : Z) : outcome unit :=
  if (size <? - 2 ^ 63) || (ssize_max <? size) then Raise OverflowError
  else if size <? -1 then Raise ValueError
  else Return tt.

(** An integer converts to a float when its magnitude is below
    [2^1024 - 2^970]; a larger one raises [OverflowError]
    ("int too large to convert to float"). *)
Definition float_limit : Z := 2 ^ 1024 - 2 ^ 970.

Definition to_float_check (x : Z) : outcome unit :=
  if Z.abs x <? float_limit then Return tt else Raise OverflowError.

(** ** Sample accumulator *)

Module Sample.

(** Modelled from the spec: the class [Sample] of module [stats1], which
    [modfile.py] imports and which is not among the sources.  Section 4.1:
    a running count, sum and sum of squares; [add(value)] increments the
    count by 1, the sum by [value] and the sum of squares by [value²]. *)
Record t : Type := mk { num : Z; sum : Z; sum2 : Z }.

Definition new : t := mk 0 0 0.

Definition add (s : t) (value : Z) : t :=
  mk (num s + 1) (sum s + value) (sum2 s + value * value).

(** The accumulator that results from adding the values of [l] in order. *)
Definition of_list (l : list Z) : t := fold_left add l new.

End Sample.

(** ** Command-line lengths *)

(** A number attribute that holds either an [int] or a [float]
    ([ilen and 1.0/ilen] is the integer [0] when [ilen] is [0]). *)
Inductive number (float : Type) : Type :=
| Int (z : Z)
| Float (x : float).
Arguments Int {float} z.
Arguments Float {float} x.

(** Characters that [int] skips at both ends of an ASCII argument: tab,
    line feed, vertical tab, form feed, carriage return and space. *)
Definition is_space (c : ascii) : bool :=
  let n := nat_of_ascii c in
  ((9 <=? n) && (n <=? 13) || (n =? 32))%nat.

Definition digit_of (c : ascii) : option Z :=
  let n := nat_of_ascii c in
  if ((48 <=? n) && (n <=? 57))%nat then Some (Z.of_nat n - 48) else None.

(** Decimal digits, with single underscores allowed between two digits;
    [after_digit] tells whether the previous character was a digit. *)
Fixpoint digits (s : list ascii) (acc : Z) (after_digit : bool) : option Z :=
  match s with
  | [] => if after_digit then Some acc else None
  | c :: s' =>
      if Ascii.eqb c "_" then
        if after_digit then digits s' acc false else None
      else
        match digit_of c with
        | Some d => digits s' (10 * acc + d) true
        | None => None
        end
  end.

Fixpoint lstrip (s : list ascii) : list ascii :=
  match s with
  | c :: s' => if is_space c then lstrip s' else s
  | [] => []
  end.

Definition strip (s : list ascii) : list ascii :=
  rev (lstrip (rev (lstrip s))).

(** The builtin [int(s)] on an ASCII string, base 10: surrounding white
    space, an optional sign, then digits; [ValueError] otherwise.  Digits
    and spaces outside ASCII, and the bound on the number of digits that
    later interpreters put on the conversion, are not modelled. *)
Definition split_sign (body : list ascii) : bool * list ascii :=
  match body with
  | c :: r =>
      if Ascii.eqb c "-" then (true, r)
      else if Ascii.eqb c "+" then (false, r)
      else (false, body)
  | [] => (false, body)
  end.

Definition int_of_str (s : string) : outcome Z :=
  let '(neg, ds) := split_sign (strip (list_ascii_of_string s)) in
  match digits ds 0 false with
  | Some v => Return (if neg then - v else v)
  | None => Raise ValueError
  end.

(** [arg[-1]]; [None] when the string is empty (an [IndexError]). *)
Fixpoint last_char (s : string) : option ascii :=
  match s with
  | EmptyString => None
  | String c EmptyString => Some c
  | String _ s' => last_char s'
  end.

(** [arg[:-1]] *)
Fixpoint but_last (s : string) : string :=
  match s with
  | EmptyString => EmptyString
  | String _ EmptyString => EmptyString
  | String c s' => String c (but_last s')
  end.

(** [c in t] for a one-character string [c]. *)
Fixpoint char_in (c : ascii) (t : string) : bool :=
  match t with
  | EmptyString => false
  | String d t' => Ascii.eqb c d || char_in c t'
  end.

Definition getlen (arg : string) : outcome Z :=
  match last_char arg with
  | None => Raise IndexError
  | Some c =>
      if char_in c "kK" then
        n <- int_of_str (but_last arg) ;; Return (n * 1024)
      else if char_in c "mM" then
        n <- int_of_str (but_last arg) ;; Return (n * 1024 * 1024)
      else if char_in c "gG" then
        n <- int_of_str (but_last arg) ;; Return (n * 1024 * 1024 * 1024)
      else int_of_str arg
  end.

(** [sys.argv[n] if len(sys.argv) > n else default] *)
Definition getarg (argv : list string) (n : nat) (default : option string)
  : option string :=
  match nth_error argv n with
  | Some a => Some a
  | None => default
  end.

Definition default_str (o : option string) : string :=
  match o with
  | Some a => a
  | None => EmptyString
  end.

(** The decimal text of an integer, as a shell user types it. *)
Definition decimal (z : Z) : string :=
  DecimalString.NilZero.string_of_int (Z.to_int z).

(** ** A small concrete sampler

    An instance of the abstract generator interface on which the definitions
    compute: floats are exact rationals, the generator state is an integer
    that a linear congruence advances, and a draw is [(state mod 5) / lambd]. *)

Module Toy.

Definition float : Type := Q.

Definition fdiv_one (x : Z) : float := (1 / inject_Z x)%Q.

(** Truncation towards zero. *)
Definition int_of_float (q : float) : Z := Z.quot (Qnum q) (Z.pos (Qden q)).

Definition Rng : Type := Z.

Definition Random (seed : Z) : Rng := seed.

Definition expovariate (r : Rng) (lambd : number float) : float * Rng :=
  let l := match lambd with
           | Int z => inject_Z z
           | Float x => x
           end in
  ((inject_Z (r mod 5) / l)%Q, (3 * r + 1) mod 17).

End Toy.

(** ** The generator *)

Section Generator.

(** Python's [float], with [1.0 / x] for an integer [x <> 0] and the
    truncation [int(x)]. *)
Variable float : Type.
Variable fdiv_one : Z -> float.
Variable int_of_float : float -> Z.

(** [random.Random]: the state made from a seed, and [expovariate], which
    returns a sample and the advanced state. *)
Variable Rng : Type.
Variable Random : Z -> Rng.
Variable expovariate : Rng -> number float -> float * Rng.

Local Abbreviation number := (number float).

Record ModifiedFileData : Type := mkGen {
  dat : stream;
  ins : stream;
  clen : Z;
  ilen : Z;
  dlen : Z;
  seed : Z;
  clambd : number;
  ilambd : number;
  dlambd : number;
  rng : Rng;                 (* self.mod *)
  cpystats : Sample.t;
  insstats : Sample.t;
  delstats : Sample.t;
  cpy_n : Z;
  ins_n : Z;
  del_n : Z
}.

(** [x and int(self.mod.expovariate(lambd))]: the sampler is consulted only
    when the mean [x] is not [0]; otherwise the value is [x] itself. *)
Definition and_sample (x : Z) (m : Rng) (lambd : number) : Z * Rng :=
  if truthy x then
    let '(v, m') := expovariate m lambd in (int_of_float v, m')
  else (x, m).

Definition initcycle (g : ModifiedFileData) : ModifiedFileData :=
  let '(v, m1) := expovariate (rng g) (clambd g) in
  let c := Z.max 1 (int_of_float v) in
  let '(i, m2) := and_sample (ilen g) m1 (ilambd g) in
  let '(d, m3) := and_sample (dlen g) m2 (dlambd g) in
  mkGen (dat g) (ins g) (clen g) (ilen g) (dlen g) (seed g)
        (clambd g) (ilambd g) (dlambd g) m3
        (cpystats g) (insstats g) (delstats g) c i d.

Definition reset (g : ModifiedFileData) : ModifiedFileData :=
  initcycle
    (mkGen (dat g) (ins g) (clen g) (ilen g) (dlen g) (seed g)
           (clambd g) (ilambd g) (dlambd g) (Random (seed g))
           Sample.new Sample.new Sample.new
           (cpy_n g) (ins_n g) (del_n g)).

(** [x and 1.0/x] *)
Definition and_lambd (x : Z) : number :=
  if truthy x then Float (fdiv_one x) else Int x.

Definition default (o : option Z) (d : Z) : Z :=
  match o with
  | Some z => z
  | None => d
  end.

(** The constructor.  [urandom] is what [open('/dev/urandom','rb')] will
    deliver; [None] stands for an argument left out.  The attributes that
    [reset] sets are filled in before it runs with values it overwrites. *)
Definition __init__ (infile urandom : stream) (clen : Z)
    (ilen dlen seed : option Z) : outcome ModifiedFileData :=
  let ilen := default ilen clen in
  let dlen := default dlen clen in
  let seed := default seed 1 in
  if clen =? 0 then Raise ZeroDivisionError
  else
    Return (reset (mkGen infile urandom clen ilen dlen seed
                         (Float (fdiv_one clen)) (and_lambd ilen)
                         (and_lambd dlen) (Random seed)
                         Sample.new Sample.new Sample.new 0 0 0)).

Definition getdata (g : ModifiedFileData) : bytes * ModifiedFileData :=
  let '(data, dat1) := read (dat g) (cpy_n g) in
  if nonempty data then
    let cpystats' := Sample.add (cpystats g) (len data) in
    let '(rnd, ins1) := read (ins g) (ins_n g) in
    let insstats' := Sample.add (insstats g) (ins_n g) in
    let '(skip, dat2) := read dat1 (del_n g) in
    let delstats' := Sample.add (delstats g) (len skip) in
    (data ++ rnd,
     initcycle
       (mkGen dat2 ins1 (clen g) (ilen g) (dlen g) (seed g)
              (clambd g) (ilambd g) (dlambd g) (rng g)
              cpystats' insstats' delstats'
              (cpy_n g) (ins_n g) (del_n g)))
  else
    (data,
     mkGen dat1 (ins g) (clen g) (ilen g) (dlen g) (seed g)
           (clambd g) (ilambd g) (dlambd g) (rng g)
           (cpystats g) (insstats g) (delstats g)
           (cpy_n g) (ins_n g) (del_n g)).

Definition inp_c (g : ModifiedFileData) : Z :=
  Sample.sum (cpystats g) + Sample.sum (delstats g).

Definition tot_c (g : ModifiedFileData) : Z :=
  Sample.sum (cpystats g) + Sample.sum (insstats g).

Definition dup_c (g : ModifiedFileData) : Z :=
  Sample.sum (cpystats g).

(** What [__str__] hands to its format string: the constructor arguments
    shown by [__repr__], the three byte counts, the percentage of duplicate
    bytes and the three accumulators.  The percentage
    [100.0 * dup_c / tot_c] is kept as the exact quotient that the float
    approximates; the text layout is not modelled. *)
Record report : Type := mkReport {
  rep_clen : Z;
  rep_ilen : Z;
  rep_dlen : Z;
  rep_seed : Z;
  rep_inp : Z;
  rep_tot : Z;
  rep_dup : Z;
  rep_pct : Q;
  rep_cpy : Sample.t;
  rep_ins : Sample.t;
  rep_del : Sample.t
}.

(** Python's [x / y] on numbers: [ZeroDivisionError] when [y] is zero. *)
Definition truediv (x : Q) (y : Z) : outcome Q :=
  if y =? 0 then Raise ZeroDivisionError
  else Return (x / inject_Z y)%Q.

Definition __str__ (g : ModifiedFileData) : outcome report :=
  pct <- truediv (inject_Z 100 * inject_Z (dup_c g))%Q (tot_c g) ;;
  Return (mkReport (clen g) (ilen g) (dlen g) (seed g)
                   (inp_c g) (tot_c g) (dup_c g) pct
                   (cpystats g) (insstats g) (delstats g)).

(** The loop of the main program: [getdata] until it returns nothing,
    writing every chunk to [out].  [fuel] bounds the number of calls;
    [None] means the bound was hit before the loop ended. *)
Fixpoint copy_loop (fuel : nat) (g : ModifiedFileData) (out : bytes)
  : option (bytes * ModifiedFileData) :=
  match fuel with
  | O => None
  | S fuel' =>
      let '(data, g') := getdata g in
      if nonempty data then copy_loop fuel' g' (out ++ data)
      else Some (out, g')
  end.

(** The state after [n] calls of [getdata], and the chunks they returned. *)
Fixpoint calls (n : nat) (g : ModifiedFileData)
  : list bytes * ModifiedFileData :=
  match n with
  | O => ([], g)
  | S n' =>
      let '(data, g1) := getdata g in
      let '(rest, g2) := calls n' g1 in
      (data :: rest, g2)
  end.

Definition is_help (a : option string) : bool :=
  match a with
  | None => true
  | Some s => (s =? "-?")%string || (s =? "-h")%string
              || (s =? "--help")%string
  end.

(** The main program on [argv], standard input [stdin] and the bytes
    [urandom] of the random device.  The result is what was written to
    standard output and how the program ended: with the report written to
    standard error, or with an exception ([usage] ends in [sys.exit]; its
    text is not modelled). *)
Definition main (fuel : nat) (argv : list string) (stdin urandom : stream)
  : option (bytes * outcome report) :=
  let arg1 := getarg argv 1 None in
  if is_help arg1 then Some ([], Raise (SystemExit 0))
  else
    let arg2 := getarg argv 2 arg1 in
    let arg3 := getarg argv 3 arg2 in
    let lens :=
      clen <- getlen (default_str arg1) ;;
      ilen <- getlen (default_str arg2) ;;
      dlen <- getlen (default_str arg3) ;;
      __init__ stdin urandom clen (Some ilen) (Some dlen) None in
    match lens with
    | Raise e => Some ([], Raise e)
    | Return gen =>
        match copy_loop fuel gen [] with
        | None => None
        | Some (out, gen') => Some (out, __str__ gen')
        end
    end.


(** The three values that one call of [getdata] on [g] passes to
    [cpystats.add], [insstats.add] and [delstats.add]; [None] when the
    copy read returns nothing and no value is recorded. *)
Definition recorded1 (g : ModifiedFileData) : option (Z * Z * Z) :=
  let '(data, dat1) := read (dat g) (cpy_n g) in
  if nonempty data then
    Some (len data, ins_n g, len (fst (read dat1 (del_n g))))
  else None.

(** The values recorded by [n] successive calls, oldest first. *)
Fixpoint recorded (n : nat) (g : ModifiedFileData) : list (Z * Z * Z) :=
  match n with
  | O => []
  | S n' =>
      match recorded1 g with
      | Some r => r :: recorded n' (snd (getdata g))
      | None => recorded n' (snd (getdata g))
      end
  end.

Definition cpy_of (r : Z * Z * Z) : Z := fst (fst r).
Definition ins_of (r : Z * Z * Z) : Z := snd (fst r).
Definition del_of (r : Z * Z * Z) : Z := snd r.

Definition zsum (l : list Z) : Z := fold_right Z.add 0 l.

(** Construct, then call [getdata] until it returns nothing: the output
    and the final state.  The bound on the number of calls is one more
    than the number of bytes of original content. *)
Definition run_from (g : ModifiedFileData)
  : option (bytes * ModifiedFileData) :=
  copy_loop (S (List.length (dat g))) g [].

(** The state that [getdata] hands to [initcycle] after a cycle that
    copied something. *)
Definition after_cycle (g : ModifiedFileData) : ModifiedFileData :=
  let dat1 := snd (read (dat g) (cpy_n g)) in
  mkGen (snd (read dat1 (del_n g))) (snd (read (ins g) (ins_n g)))
        (clen g) (ilen g) (dlen g) (seed g)
        (clambd g) (ilambd g) (dlambd g) (rng g)
        (Sample.add (cpystats g) (len (fst (read (dat g) (cpy_n g)))))
        (Sample.add (insstats g) (ins_n g))
        (Sample.add (delstats g) (len (fst (read dat1 (del_n g)))))
        (cpy_n g) (ins_n g) (del_n g).

(** What holds of every state of a generator made with [ilen = 0]. *)
Definition ins_off (urandom : stream) (g : ModifiedFileData) : Prop :=
  ilen g = 0 /\ ins_n g = 0 /\ ins g = urandom
  /\ Sample.sum (insstats g) = 0 /\ Sample.sum2 (insstats g) = 0.

(** What holds of every state of a generator made with [dlen = 0]. *)
Definition del_off (g : ModifiedFileData) : Prop :=
  dlen g = 0 /\ del_n g = 0
  /\ Sample.sum (delstats g) = 0 /\ Sample.sum2 (delstats g) = 0.


(** The arguments of the constructor, as the generator keeps them. *)
Definition config (g : ModifiedFileData)
  : Z * Z * Z * Z * number * number * number :=
  (clen g, ilen g, dlen g, seed g, clambd g, ilambd g, dlambd g).

(** *** The constructor and [getdata] with the interpreter's checks

    [__init__] and [getdata] above give the result on means that convert to
    a float and on read sizes that the file objects accept.  The two
    definitions below add the checks that come first. *)

(** [1.0/clen] converts [clen] before it divides; [ilen and 1.0/ilen]
    converts [ilen] only when it is not [0]. *)
Definition and_float_check (x : Z) : outcome unit :=
  if truthy x then to_float_check x else Return tt.

Definition init_checked (infile urandom : stream) (clen : Z)
    (ilen dlen seed : option Z) : outcome ModifiedFileData :=
  _ <- to_float_check clen ;;
  if clen =? 0 then Raise ZeroDivisionError
  else
    _ <- and_float_check (default ilen clen) ;;
    _ <- and_float_check (default dlen clen) ;;
    __init__ infile urandom clen ilen dlen seed.

(** The copy read is checked first; the insert and delete reads are made,
    and checked, only when the copy read returned something.  An exception
    ends the program, so the state it leaves is not modelled. *)
Definition getdata_checked (g : ModifiedFileData)
  : outcome (bytes * ModifiedFileData) :=
  _ <- read_check (cpy_n g) ;;
  if nonempty (fst (read (dat g) (cpy_n g))) then
    _ <- read_check (ins_n g) ;;
    _ <- read_check (del_n g) ;;
    Return (getdata g)
  else Return (getdata g).

(** The sampler, asked for a length of mean [x], gives a float that [int]
    converts (not an infinity, on which [int] raises [OverflowError]) to
    an integer that a read accepts as a size and that is not negative.
    [int_of_float] is [int] on the floats that it converts. *)
Definition sampler_fits (x : Z) : Prop :=
  forall r : Rng,
    0 <= int_of_float (fst (expovariate r (Float (fdiv_one x))))
      <= ssize_max.

(** A mean that the program handles without an exception: [0] for a phase
    switched off, or positive, convertible to a float and sampled within
    range. *)
Definition mean_ok (x : Z) : Prop :=
  0 < x < float_limit /\ sampler_fits x.

Definition means_ok (c i d : Z) : Prop :=
  mean_ok c /\ (i = 0 \/ mean_ok i) /\ (d = 0 \/ mean_ok d).

(** A generator whose rates belong to its means, whose means are handled
    without an exception, and whose pending lengths are sizes that a read
    accepts. *)
Definition configured (g : ModifiedFileData) : Prop :=
  clambd g = Float (fdiv_one (clen g))
  /\ ilambd g = and_lambd (ilen g) /\ dlambd g = and_lambd (dlen g)
  /\ means_ok (clen g) (ilen g) (dlen g).

Definition in_range (g : ModifiedFileData) : Prop :=
  configured g
  /\ 1 <= cpy_n g <= ssize_max
  /\ 0 <= ins_n g <= ssize_max
  /\ 0 <= del_n g <= ssize_max.

(** ** Reading a source *)

Lemma read_app (f : stream) (size : Z) :
  fst (read f size) ++ snd (read f size) = f.
Proof.
  unfold read. destruct (size <? 0); simpl.
  - apply app_nil_r.
  - apply firstn_skipn.
Qed.

Lemma read_length (f : stream) (size : Z) :
  len (fst (read f size)) + len (snd (read f size)) = len f.
Proof.
  unfold len. rewrite <- Nat2Z.inj_add, <- length_app, read_app.
  reflexivity.
Qed.

Lemma read_nothing (f : stream) (size : Z) :
  fst (read f size) = [] -> snd (read f size) = f.
Proof.
  intros H. generalize (read_app f size). rewrite H. trivial.
Qed.

Lemma read_some (f : stream) (size : Z) :
  1 <= size -> f <> [] -> fst (read f size) <> [].
Proof.
  intros Hs Hf. unfold read.
  destruct (size <? 0) eqn:E; [lia|]. simpl.
  destruct f as [|b f]; [congruence|].
  destruct (Z.to_nat size) eqn:En; [lia|]. simpl. discriminate.
Qed.

Lemma read_at_end (size : Z) : read [] size = ([], []).
Proof.
  unfold read. destruct (size <? 0); [reflexivity|].
  now rewrite firstn_nil, skipn_nil.
Qed.



Lemma nonempty_true (b : bytes) : nonempty b = true <-> b <> [].
Proof. destruct b; simpl; split; congruence. Qed.

Lemma nonempty_false (b : bytes) : nonempty b = false <-> b = [].
Proof. destruct b; simpl; split; congruence. Qed.

(** ** One cycle *)

Lemma and_sample_zero (m : Rng) (lambd : number) :
  and_sample 0 m lambd = (0, m).
Proof. reflexivity. Qed.

(** [initcycle] touches the generator state and the pending lengths only. *)
Lemma initcycle_frame (g : ModifiedFileData) :
  dat (initcycle g) = dat g /\ ins (initcycle g) = ins g
  /\ clen (initcycle g) = clen g /\ ilen (initcycle g) = ilen g
  /\ dlen (initcycle g) = dlen g /\ seed (initcycle g) = seed g
  /\ clambd (initcycle g) = clambd g /\ ilambd (initcycle g) = ilambd g
  /\ dlambd (initcycle g) = dlambd g
  /\ cpystats (initcycle g) = cpystats g
  /\ insstats (initcycle g) = insstats g
  /\ delstats (initcycle g) = delstats g.
Proof.
  unfold initcycle.
  destruct (expovariate (rng g) (clambd g)) as [v m1].
  destruct (and_sample (ilen g) m1 (ilambd g)) as [i m2].
  destruct (and_sample (dlen g) m2 (dlambd g)) as [d m3].
  simpl. repeat split.
Qed.

(** "Note we always copy at least one byte." *)
Lemma initcycle_cpy_n (g : ModifiedFileData) : 1 <= cpy_n (initcycle g).
Proof.
  unfold initcycle.
  destruct (expovariate (rng g) (clambd g)) as [v m1].
  destruct (and_sample (ilen g) m1 (ilambd g)) as [i m2].
  destruct (and_sample (dlen g) m2 (dlambd g)) as [d m3].
  simpl. lia.
Qed.

Lemma getdata_some (g : ModifiedFileData) :
  fst (read (dat g) (cpy_n g)) <> [] ->
  getdata g = (fst (read (dat g) (cpy_n g))
                 ++ fst (read (ins g) (ins_n g)),
               initcycle (after_cycle g)).
Proof.
  intros H. unfold getdata, after_cycle.
  destruct (read (dat g) (cpy_n g)) as [data dat1]. simpl in *.
  apply nonempty_true in H. rewrite H.
  destruct (read (ins g) (ins_n g)) as [rnd ins1].
  destruct (read dat1 (del_n g)) as [skip dat2]. reflexivity.
Qed.

Lemma getdata_none (g : ModifiedFileData) :
  fst (read (dat g) (cpy_n g)) = [] -> getdata g = ([], g).
Proof.
  intros H. unfold getdata.
  generalize (read_nothing _ _ H).
  destruct (read (dat g) (cpy_n g)) as [data dat1]. simpl in *.
  intros ->. subst data. simpl. destruct g; reflexivity.
Qed.

(** The chunk is empty exactly when the copy read returned nothing. *)
Lemma getdata_empty_iff (g : ModifiedFileData) :
  fst (getdata g) = [] <-> fst (read (dat g) (cpy_n g)) = [].
Proof.
  split; intros H.
  - destruct (fst (read (dat g) (cpy_n g))) eqn:E; [reflexivity|].
    rewrite getdata_some in H by (rewrite E; discriminate).
    simpl in H. rewrite E in H. discriminate.
  - now rewrite getdata_none.
Qed.

Lemma calls_step (n : nat) (g : ModifiedFileData) :
  calls (S n) g
  = (fst (getdata g) :: fst (calls n (snd (getdata g))),
     snd (calls n (snd (getdata g)))).
Proof.
  cbn [calls]. destruct (getdata g) as [data g1]. cbn [fst snd].
  destruct (calls n g1) as [rest g2]. reflexivity.
Qed.

Lemma calls_last (n : nat) (g : ModifiedFileData) :
  snd (calls (S n) g) = snd (getdata (snd (calls n g))).
Proof.
  revert g. induction n as [|n IH]; intros g.
  - rewrite calls_step. reflexivity.
  - rewrite (calls_step (S n) g). cbn [snd]. rewrite IH.
    rewrite (calls_step n g). reflexivity.
Qed.

(** C4.  Once [getdata] has returned an empty result, the state it leaves
    is the state it found, and every later call returns an empty result
    again and leaves that state as it is: no accumulator changes and the
    pending lengths [cpy_n], [ins_n] and [del_n] are not sampled again. *)
Theorem getdata_end_of_stream_idempotent (g : ModifiedFileData) :
  fst (getdata g) = [] ->
  snd (getdata g) = g
  /\ forall n : nat,
       calls n (snd (getdata g)) = (repeat [] n, snd (getdata g)).
Proof.
  intros H. apply getdata_empty_iff in H.
  pose proof (getdata_none g H) as E. rewrite E. simpl snd.
  split; [reflexivity|].
  induction n as [|n IH]; [reflexivity|].
  rewrite calls_step, E. simpl fst. simpl snd. rewrite IH. reflexivity.
Qed.

(** ** Byte accounting *)

Lemma sum_fold_add (l : list Z) (s : Sample.t) :
  Sample.sum (fold_left Sample.add l s) = Sample.sum s + zsum l.
Proof.
  revert s. induction l as [|x l IH]; intros s; simpl.
  - lia.
  - rewrite IH. simpl. lia.
Qed.

Lemma recorded1_some (g : ModifiedFileData) :
  fst (read (dat g) (cpy_n g)) <> [] ->
  recorded1 g
  = Some (len (fst (read (dat g) (cpy_n g))), ins_n g,
          len (fst (read (snd (read (dat g) (cpy_n g))) (del_n g)))).
Proof.
  intros H. unfold recorded1.
  destruct (read (dat g) (cpy_n g)) as [data dat1]. simpl in *.
  apply nonempty_true in H. now rewrite H.
Qed.

Lemma recorded1_none (g : ModifiedFileData) :
  fst (read (dat g) (cpy_n g)) = [] -> recorded1 g = None.
Proof.
  intros H. unfold recorded1.
  destruct (read (dat g) (cpy_n g)) as [data dat1]. simpl in *.
  now subst data.
Qed.

(** The accumulators after [n] calls are the accumulators before them
    with the recorded values added in order. *)
Lemma stats_after_calls (n : nat) (g : ModifiedFileData) :
  cpystats (snd (calls n g))
  = fold_left Sample.add (map cpy_of (recorded n g)) (cpystats g)
  /\ insstats (snd (calls n g))
     = fold_left Sample.add (map ins_of (recorded n g)) (insstats g)
  /\ delstats (snd (calls n g))
     = fold_left Sample.add (map del_of (recorded n g)) (delstats g).
Proof.
  revert g. induction n as [|n IH]; intros g; [now simpl|].
  rewrite calls_step. cbn [snd recorded].
  destruct (fst (read (dat g) (cpy_n g))) as [|b data] eqn:E.
  - rewrite (recorded1_none g E), (getdata_none g E). apply IH.
  - assert (H : fst (read (dat g) (cpy_n g)) <> [])
      by (rewrite E; discriminate).
    rewrite (recorded1_some g H), (getdata_some g H). cbn [snd map fold_left].
    destruct (IH (initcycle (after_cycle g))) as (Hc & Hi & Hd).
    destruct (initcycle_frame (after_cycle g))
      as (_ & _ & _ & _ & _ & _ & _ & _ & _ & Fc & Fi & Fd).
    rewrite Hc, Hi, Hd, Fc, Fi, Fd. unfold after_cycle; simpl.
    unfold cpy_of, ins_of, del_of; simpl. repeat split.
Qed.

Lemma init_returns (infile urandom : stream) (clen : Z)
    (ilen dlen seed : option Z) (g0 : ModifiedFileData) :
  __init__ infile urandom clen ilen dlen seed = Return g0 ->
  clen <> 0
  /\ g0 = reset (mkGen infile urandom clen (default ilen clen)
                       (default dlen clen) (default seed 1)
                       (Float (fdiv_one clen))
                       (and_lambd (default ilen clen))
                       (and_lambd (default dlen clen))
                       (Random (default seed 1))
                       Sample.new Sample.new Sample.new 0 0 0).
Proof.
  unfold __init__. destruct (clen =? 0) eqn:E; [discriminate|].
  intros H. injection H as <-. split; [lia|reflexivity].
Qed.

Lemma reset_frame (g : ModifiedFileData) :
  dat (reset g) = dat g /\ ins (reset g) = ins g
  /\ clen (reset g) = clen g /\ ilen (reset g) = ilen g
  /\ dlen (reset g) = dlen g /\ seed (reset g) = seed g
  /\ clambd (reset g) = clambd g /\ ilambd (reset g) = ilambd g
  /\ dlambd (reset g) = dlambd g
  /\ cpystats (reset g) = Sample.new
  /\ insstats (reset g) = Sample.new
  /\ delstats (reset g) = Sample.new.
Proof.
  unfold reset.
  match goal with
  | |- context [initcycle ?x] => pose proof (initcycle_frame x) as F
  end.
  simpl in F. exact F.
Qed.

(** C2.  At every point after construction, that is after any number [n]
    of calls of [getdata], each accumulator holds exactly the values
    recorded so far, [inp_c] is the sum of the recorded copy lengths plus
    the sum of the recorded delete lengths, and [tot_c] is the sum of the
    recorded copy lengths plus the sum of the recorded insert lengths. *)
Theorem byte_accounting (infile urandom : stream) (clen : Z)
    (ilen dlen seed : option Z) (g0 : ModifiedFileData) (n : nat) :
  __init__ infile urandom clen ilen dlen seed = Return g0 ->
  let g := snd (calls n g0) in
  let h := recorded n g0 in
  cpystats g = Sample.of_list (map cpy_of h)
  /\ insstats g = Sample.of_list (map ins_of h)
  /\ delstats g = Sample.of_list (map del_of h)
  /\ inp_c g = zsum (map cpy_of h) + zsum (map del_of h)
  /\ tot_c g = zsum (map cpy_of h) + zsum (map ins_of h).
Proof.
  intros Hinit g h. apply init_returns in Hinit as [_ ->].
  destruct (stats_after_calls n
    (reset (mkGen infile urandom clen (default ilen clen)
                  (default dlen clen) (default seed 1)
                  (Float (fdiv_one clen))
                  (and_lambd (default ilen clen))
                  (and_lambd (default dlen clen))
                  (Random (default seed 1))
                  Sample.new Sample.new Sample.new 0 0 0)))
    as (Hc & Hi & Hd).
  match type of Hc with
  | context [reset ?x] =>
      destruct (reset_frame x)
        as (_ & _ & _ & _ & _ & _ & _ & _ & _ & Fc & Fi & Fd)
  end.
  rewrite Fc in Hc. rewrite Fi in Hi. rewrite Fd in Hd.
  fold g in Hc, Hi, Hd. fold h in Hc, Hi, Hd.
  unfold inp_c, tot_c, Sample.of_list. rewrite Hc, Hi, Hd.
  rewrite !sum_fold_add. simpl. repeat split.
Qed.

(** ** Progress *)

Lemma getdata_cpy_n (g : ModifiedFileData) :
  1 <= cpy_n g -> 1 <= cpy_n (snd (getdata g)).
Proof.
  intros H. destruct (fst (read (dat g) (cpy_n g))) as [|b data] eqn:E.
  - now rewrite (getdata_none g E).
  - rewrite getdata_some by (rewrite E; discriminate).
    apply initcycle_cpy_n.
Qed.

Lemma calls_cpy_n (n : nat) (g : ModifiedFileData) :
  1 <= cpy_n g -> 1 <= cpy_n (snd (calls n g)).
Proof.
  intros H. induction n as [|n IH]; [exact H|].
  rewrite calls_last. now apply getdata_cpy_n.
Qed.

(** A call that returns something consumes at least one byte of the
    original content. *)
Lemma getdata_advances (g : ModifiedFileData) :
  fst (getdata g) <> [] ->
  (List.length (dat (snd (getdata g))) < List.length (dat g))%nat.
Proof.
  intros H.
  assert (Hd : fst (read (dat g) (cpy_n g)) <> []).
  { intros E. apply H. now apply getdata_empty_iff. }
  rewrite (getdata_some g Hd). cbn [snd].
  destruct (initcycle_frame (after_cycle g)) as (-> & _).
  unfold after_cycle; simpl.
  pose proof (read_length (dat g) (cpy_n g)) as L1.
  pose proof (read_length (snd (read (dat g) (cpy_n g))) (del_n g)) as L2.
  unfold len in *.
  destruct (fst (read (dat g) (cpy_n g))); [congruence|].
  simpl List.length in L1. lia.
Qed.

Lemma getdata_at_end (g : ModifiedFileData) :
  dat g = [] -> fst (getdata g) = [].
Proof.
  intros H. apply getdata_empty_iff. rewrite H, read_at_end. reflexivity.
Qed.

Lemma end_reached (m : nat) :
  forall g : ModifiedFileData,
    (List.length (dat g) <= m)%nat -> 1 <= cpy_n g ->
    exists n : nat,
      (n <= m)%nat /\ fst (getdata (snd (calls n g))) = [].
Proof.
  induction m as [|m IH]; intros g Hm Hc.
  - exists O. split; [lia|]. apply getdata_at_end. cbn [calls snd].
    destruct (dat g); [reflexivity|simpl in Hm; lia].
  - destruct (fst (getdata g)) as [|b data] eqn:E.
    + exists O. split; [lia|exact E].
    + assert (Hne : fst (getdata g) <> []) by (rewrite E; discriminate).
      pose proof (getdata_advances g Hne) as Hadv.
      destruct (IH (snd (getdata g))) as (n & Hn & Hend);
        [lia|now apply getdata_cpy_n|].
      exists (S n). split; [lia|].
      rewrite calls_step. exact Hend.
Qed.

Lemma init_cpy_n (infile urandom : stream) (clen : Z)
    (ilen dlen seed : option Z) (g0 : ModifiedFileData) :
  __init__ infile urandom clen ilen dlen seed = Return g0 ->
  1 <= cpy_n g0 /\ dat g0 = infile /\ ins g0 = urandom.
Proof.
  intros H. apply init_returns in H as [_ ->].
  split; [apply initcycle_cpy_n|].
  match goal with
  | |- context [reset ?x] =>
      destruct (reset_frame x) as (-> & -> & _)
  end.
  split; reflexivity.
Qed.

(** The loop of the main program ends: with one more call than there are
    bytes of original content it returns. *)
Lemma copy_loop_ends (m : nat) :
  forall (g : ModifiedFileData) (out : bytes),
    (List.length (dat g) < m)%nat ->
    exists (out' : bytes) (g' : ModifiedFileData),
      copy_loop m g out = Some (out', g') /\ fst (getdata g') = [].
Proof.
  induction m as [|m IH]; intros g out Hm; [lia|].
  cbn [copy_loop].
  destruct (fst (getdata g)) as [|b data] eqn:E.
  - pose proof E as E'. apply getdata_empty_iff in E'.
    rewrite (getdata_none g E'). simpl.
    exists out, g. split; [reflexivity|exact E].
  - assert (Hne : fst (getdata g) <> []) by (rewrite E; discriminate).
    pose proof (getdata_advances g Hne) as Hadv.
    destruct (getdata g) as [data' g1]. simpl in *. subst data'. simpl.
    apply IH. lia.
Qed.

Lemma run_from_returns (g : ModifiedFileData) :
  exists (out : bytes) (g' : ModifiedFileData),
    run_from g = Some (out, g') /\ fst (getdata g') = [].
Proof. unfold run_from. apply copy_loop_ends. lia. Qed.

(** ** The insert and delete phases of a cycle *)





(** ** A phase switched off by a zero mean *)

Lemma initcycle_ins_off (g : ModifiedFileData) :
  ilen g = 0 ->
  ins_n (initcycle g) = 0
  /\ rng (initcycle g)
     = snd (and_sample (dlen g) (snd (expovariate (rng g) (clambd g)))
                       (dlambd g)).
Proof.
  intros H. unfold initcycle. rewrite H.
  destruct (expovariate (rng g) (clambd g)) as [v m1]. cbn [snd].
  rewrite and_sample_zero.
  destruct (and_sample (dlen g) m1 (dlambd g)) as [d m3]. split; reflexivity.
Qed.

Lemma initcycle_del_off (g : ModifiedFileData) :
  dlen g = 0 ->
  del_n (initcycle g) = 0
  /\ rng (initcycle g)
     = snd (and_sample (ilen g) (snd (expovariate (rng g) (clambd g)))
                       (ilambd g)).
Proof.
  intros H. unfold initcycle. rewrite H.
  destruct (expovariate (rng g) (clambd g)) as [v m1]. cbn [snd].
  destruct (and_sample (ilen g) m1 (ilambd g)) as [i m2].
  rewrite and_sample_zero. split; reflexivity.
Qed.

Lemma read_zero (f : stream) : read f 0 = ([], f).
Proof. reflexivity. Qed.

Lemma getdata_ins_off (urandom : stream) (g : ModifiedFileData) :
  ins_off urandom g -> ins_off urandom (snd (getdata g)).
Proof.
  intros (Hl & Hn & Hu & Hs & Hq).
  destruct (fst (read (dat g) (cpy_n g))) as [|b data] eqn:E.
  - rewrite (getdata_none g E). repeat split; assumption.
  - rewrite getdata_some by (rewrite E; discriminate). cbn [snd].
    destruct (initcycle_frame (after_cycle g))
      as (_ & Fins & _ & Fil & _ & _ & _ & _ & _ & _ & Fi & _).
    destruct (initcycle_ins_off (after_cycle g)) as (Hn' & _); [exact Hl|].
    unfold ins_off. rewrite Fins, Fil, Fi, Hn'.
    unfold after_cycle; simpl. rewrite Hn, read_zero, Hs, Hq. simpl.
    repeat split; assumption.
Qed.

Lemma getdata_del_off (g : ModifiedFileData) :
  del_off g -> del_off (snd (getdata g)).
Proof.
  intros (Hl & Hn & Hs & Hq).
  destruct (fst (read (dat g) (cpy_n g))) as [|b data] eqn:E.
  - rewrite (getdata_none g E). repeat split; assumption.
  - rewrite getdata_some by (rewrite E; discriminate). cbn [snd].
    destruct (initcycle_frame (after_cycle g))
      as (_ & _ & _ & _ & Fdl & _ & _ & _ & _ & _ & _ & Fd).
    destruct (initcycle_del_off (after_cycle g)) as (Hn' & _); [exact Hl|].
    unfold del_off. rewrite Fdl, Fd, Hn'.
    unfold after_cycle; simpl. rewrite Hn, read_zero, Hs, Hq. simpl.
    repeat split; assumption.
Qed.

Lemma calls_invariant (P : ModifiedFileData -> Prop) :
  (forall g, P g -> P (snd (getdata g))) ->
  forall (n : nat) (g : ModifiedFileData), P g -> P (snd (calls n g)).
Proof.
  intros Hstep n g Hg. induction n as [|n IH]; [exact Hg|].
  rewrite calls_last. now apply Hstep.
Qed.

Lemma recorded_invariant (P : ModifiedFileData -> Prop)
    (Q : Z * Z * Z -> Prop) :
  (forall g, P g -> P (snd (getdata g))) ->
  (forall g r, P g -> recorded1 g = Some r -> Q r) ->
  forall (n : nat) (g : ModifiedFileData),
    P g -> Forall Q (recorded n g).
Proof.
  intros Hstep Hrec. induction n as [|n IH]; intros g Hg; [constructor|].
  cbn [recorded]. destruct (recorded1 g) as [r|] eqn:E.
  - constructor; [now apply (Hrec g)|]. apply IH. now apply Hstep.
  - apply IH. now apply Hstep.
Qed.

Lemma recorded1_ins (g : ModifiedFileData) (r : Z * Z * Z) :
  recorded1 g = Some r -> ins_of r = ins_n g.
Proof.
  unfold recorded1. destruct (read (dat g) (cpy_n g)) as [data dat1].
  destruct (nonempty data); [|discriminate].
  intros H. injection H as <-. reflexivity.
Qed.

Lemma recorded1_del (g : ModifiedFileData) (r : Z * Z * Z) :
  recorded1 g = Some r ->
  del_of r = len (fst (read (snd (read (dat g) (cpy_n g))) (del_n g))).
Proof.
  unfold recorded1. destruct (read (dat g) (cpy_n g)) as [data dat1].
  destruct (nonempty data); [|discriminate].
  intros H. injection H as <-. reflexivity.
Qed.

Lemma init_ins_off (infile urandom : stream) (c : Z)
    (d s : option Z) (g0 : ModifiedFileData) :
  __init__ infile urandom c (Some 0) d s = Return g0 -> ins_off urandom g0.
Proof.
  intros H. apply init_returns in H as [_ ->].
  match goal with
  | |- context [reset ?x] =>
      destruct (reset_frame x)
        as (_ & Fins & _ & Fil & _ & _ & _ & _ & _ & _ & Fi & _);
      pose proof (initcycle_ins_off
        (mkGen (dat x) (ins x) (clen x) (ilen x) (dlen x) (seed x)
               (clambd x) (ilambd x) (dlambd x) (Random (seed x))
               Sample.new Sample.new Sample.new
               (cpy_n x) (ins_n x) (del_n x)) eq_refl) as [Hn _]
  end.
  unfold ins_off. rewrite Fins, Fil, Fi. repeat split. exact Hn.
Qed.

Lemma init_del_off (infile urandom : stream) (c : Z)
    (i s : option Z) (g0 : ModifiedFileData) :
  __init__ infile urandom c i (Some 0) s = Return g0 -> del_off g0.
Proof.
  intros H. apply init_returns in H as [_ ->].
  match goal with
  | |- context [reset ?x] =>
      destruct (reset_frame x)
        as (_ & _ & _ & _ & Fdl & _ & _ & _ & _ & _ & _ & Fd);
      pose proof (initcycle_del_off
        (mkGen (dat x) (ins x) (clen x) (ilen x) (dlen x) (seed x)
               (clambd x) (ilambd x) (dlambd x) (Random (seed x))
               Sample.new Sample.new Sample.new
               (cpy_n x) (ins_n x) (del_n x)) eq_refl) as [Hn _]
  end.
  unfold del_off. rewrite Fdl, Fd. repeat split. exact Hn.
Qed.

(** C8.  In a generator made with [ilen = 0], at every call the pending
    insert length [ins_n] is 0, the sampling of the next cycle leaves the
    random generator in the state that the copy draw and the delete phase
    alone produce (no draw is made for the insert length), every value
    recorded in [insstats] is 0 and so is their sum, the random source is
    still as it was opened, and the chunk returned is the bytes copied from
    the original content and nothing else.  In a generator made with
    [dlen = 0], likewise, [del_n] is 0 at every call, no draw is made for
    the delete length, every value recorded in [delstats] is 0, and a call
    advances the original content by the copied bytes only. *)
Theorem zero_mean_disables_phase :
  (forall (infile urandom : stream) (c : Z) (d s : option Z)
          (g0 : ModifiedFileData) (k : nat),
      __init__ infile urandom c (Some 0) d s = Return g0 ->
      let g := snd (calls k g0) in
      ins_n g = 0
      /\ rng (initcycle g)
         = snd (and_sample (dlen g) (snd (expovariate (rng g) (clambd g)))
                           (dlambd g))
      /\ Forall (fun r => ins_of r = 0) (recorded k g0)
      /\ Sample.sum (insstats g) = 0
      /\ ins g = urandom
      /\ fst (getdata g) = fst (read (dat g) (cpy_n g)))
  /\
  (forall (infile urandom : stream) (c : Z) (i s : option Z)
          (g0 : ModifiedFileData) (k : nat),
      __init__ infile urandom c i (Some 0) s = Return g0 ->
      let g := snd (calls k g0) in
      del_n g = 0
      /\ rng (initcycle g)
         = snd (and_sample (ilen g) (snd (expovariate (rng g) (clambd g)))
                           (ilambd g))
      /\ Forall (fun r => del_of r = 0) (recorded k g0)
      /\ Sample.sum (delstats g) = 0
      /\ dat (snd (getdata g)) = snd (read (dat g) (cpy_n g))).
Proof.
  split.
  - intros infile urandom c d s g0 k H g.
    pose proof (init_ins_off _ _ _ _ _ _ H) as H0.
    pose proof (calls_invariant _ (getdata_ins_off urandom) k g0 H0) as Hg.
    fold g in Hg. destruct Hg as (Hl & Hn & Hu & Hs & _).
    split; [exact Hn|].
    split; [now apply initcycle_ins_off|].
    split.
    { apply (recorded_invariant (ins_off urandom));
        [apply getdata_ins_off| |exact H0].
      intros g' r (_ & Hn' & _) Hr.
      rewrite (recorded1_ins g' r Hr). exact Hn'. }
    split; [exact Hs|]. split; [exact Hu|].
    destruct (fst (read (dat g) (cpy_n g))) as [|b data] eqn:E.
    + now rewrite (getdata_none g E).
    + rewrite getdata_some by (rewrite E; discriminate).
      cbn [fst]. rewrite Hn, read_zero, E. cbn [fst]. apply app_nil_r.
  - intros infile urandom c i s g0 k H g.
    pose proof (init_del_off _ _ _ _ _ _ H) as H0.
    pose proof (calls_invariant _ getdata_del_off k g0 H0) as Hg.
    fold g in Hg. destruct Hg as (Hl & Hn & Hs & _).
    split; [exact Hn|].
    split; [now apply initcycle_del_off|].
    split.
    { apply (recorded_invariant del_off);
        [apply getdata_del_off| |exact H0].
      intros g' r (_ & Hn' & _) Hr.
      rewrite (recorded1_del g' r Hr), Hn', read_zero. reflexivity. }
    split; [exact Hs|].
    destruct (fst (read (dat g) (cpy_n g))) as [|b data] eqn:E.
    + rewrite (getdata_none g E). cbn [snd].
      symmetry. now apply read_nothing.
    + rewrite getdata_some by (rewrite E; discriminate). cbn [snd].
      destruct (initcycle_frame (after_cycle g)) as (-> & _).
      unfold after_cycle; simpl. rewrite Hn, read_zero. reflexivity.
Qed.

(** ** What a run depends on *)





Lemma initcycle_config (g : ModifiedFileData) :
  config (initcycle g) = config g.
Proof.
  destruct (initcycle_frame g)
    as (_ & _ & H1 & H2 & H3 & H4 & H5 & H6 & H7 & _).
  unfold config. now rewrite H1, H2, H3, H4, H5, H6, H7.
Qed.

Lemma getdata_config (g : ModifiedFileData) :
  config (snd (getdata g)) = config g.
Proof.
  destruct (fst (read (dat g) (cpy_n g))) as [|b data] eqn:E.
  - now rewrite (getdata_none g E).
  - rewrite getdata_some by (rewrite E; discriminate). cbn [snd].
    rewrite initcycle_config. reflexivity.
Qed.

Lemma calls_config (n : nat) (g : ModifiedFileData) :
  config (snd (calls n g)) = config g.
Proof.
  apply (calls_invariant (fun h => config h = config g)); [|reflexivity].
  intros h Hh. now rewrite getdata_config.
Qed.





(** ** The constructor's defaults and the final report *)

(** C7, on the code.  With [clen = a], [ilen = b] and [dlen] left out the
    constructor, when it returns, has set the delete mean to the copy mean
    [a] and not to the insert mean [b]; it raises only when [a] is 0.  With
    [ilen] left out as well, both means are [a]. *)
Theorem init_omitted_means (infile urandom : stream) (a b : Z)
    (s : option Z) :
  match __init__ infile urandom a (Some b) None s with
  | Return g => clen g = a /\ ilen g = b /\ dlen g = a
  | Raise _ => a = 0
  end
  /\ match __init__ infile urandom a None None s with
     | Return g => clen g = a /\ ilen g = a /\ dlen g = a
     | Raise _ => a = 0
     end.
Proof.
  split.
  - destruct (__init__ infile urandom a (Some b) None s) as [g|e] eqn:E.
    + apply init_returns in E as [_ ->].
      match goal with
      | |- context [reset ?x] =>
          destruct (reset_frame x) as (_ & _ & -> & -> & -> & _)
      end.
      repeat split.
    + unfold __init__ in E. destruct (a =? 0) eqn:Z0; [lia|discriminate].
  - destruct (__init__ infile urandom a None None s) as [g|e] eqn:E.
    + apply init_returns in E as [_ ->].
      match goal with
      | |- context [reset ?x] =>
          destruct (reset_frame x) as (_ & _ & -> & -> & -> & _)
      end.
      repeat split.
    + unfold __init__ in E. destruct (a =? 0) eqn:Z0; [lia|discriminate].
Qed.

(** The command line, for comparison: with the delete length left out,
    [main] takes it from the insert length. *)
Lemma main_omitted_delete_len (prog a b : string) :
  getarg [prog; a; b] 3 (getarg [prog; a; b] 2 (getarg [prog; a; b] 1 None))
  = Some b.
Proof. reflexivity. Qed.

Lemma init_empty_content (urandom : stream) (c : Z) (i d s : option Z)
    (g0 : ModifiedFileData) (fuel : nat) :
  __init__ [] urandom c i d s = Return g0 ->
  copy_loop (S fuel) g0 [] = Some ([], g0)
  /\ tot_c g0 = 0
  /\ __str__ g0 = Raise ZeroDivisionError.
Proof.
  intros H. destruct (init_cpy_n _ _ _ _ _ _ _ H) as (_ & Hdat & _).
  assert (E : fst (read (dat g0) (cpy_n g0)) = [])
    by now rewrite Hdat, read_at_end.
  assert (T : tot_c g0 = 0).
  { apply init_returns in H as [_ ->]. unfold tot_c.
    match goal with
    | |- context [reset ?x] =>
        destruct (reset_frame x)
          as (_ & _ & _ & _ & _ & _ & _ & _ & _ & -> & -> & _)
    end.
    reflexivity. }
  split; [|split; [exact T|]].
  - cbn [copy_loop]. rewrite (getdata_none g0 E). reflexivity.
  - unfold __str__, truediv. rewrite T. reflexivity.
Qed.

(** C6, on the code.  The main program started with the single length
    argument [100] on an empty standard input writes nothing to standard
    output and then ends with [ZeroDivisionError], raised by the percentage
    [100.0 * dup_c / tot_c] of [__str__]: no report is produced. *)
Theorem report_on_empty_input_raises (fuel : nat) (urandom : stream) :
  main (S fuel) ["modfile"; "100"]%string [] urandom
  = Some ([], Raise ZeroDivisionError).
Proof.
  unfold main. cbn [getarg nth_error is_help default_str].
  change (is_help (Some "100"%string)) with false. cbv iota.
  change (getlen "100") with (Return 100). cbn [bind].
  destruct (__init__ [] urandom 100 (Some 100) (Some 100) None)
    as [g0|e] eqn:E.
  - destruct (init_empty_content _ _ _ _ _ _ fuel E) as (L & _ & R).
    rewrite L, R. reflexivity.
  - unfold __init__ in E. simpl in E. discriminate.
Qed.

(** ** Where the bytes go *)

(** One call: the bytes of the original that it consumes are the ones it
    counts in [inp_c]; the chunk is the counted copy plus what was taken
    from the random source, which only ever shrinks. *)
Lemma getdata_balance (g : ModifiedFileData) :
  inp_c (snd (getdata g)) + len (dat (snd (getdata g)))
  = inp_c g + len (dat g)
  /\ len (fst (getdata g)) + dup_c g + len (ins (snd (getdata g)))
     = dup_c (snd (getdata g)) + len (ins g)
  /\ len (ins (snd (getdata g))) <= len (ins g)
  /\ dup_c g <= dup_c (snd (getdata g))
  /\ len (dat (snd (getdata g))) <= len (dat g).
Proof.
  destruct (fst (read (dat g) (cpy_n g))) as [|b data] eqn:E.
  - rewrite (getdata_none g E). cbn [fst snd]. unfold len. simpl. lia.
  - rewrite getdata_some by (rewrite E; discriminate). cbn [fst snd].
    destruct (initcycle_frame (after_cycle g))
      as (Fdat & Fins & _ & _ & _ & _ & _ & _ & _ & Fc & Fi & Fd).
    unfold inp_c, dup_c. rewrite Fdat, Fins, Fc, Fd.
    unfold after_cycle.
    cbn [dat ins cpystats insstats delstats Sample.sum Sample.add].
    pose proof (read_length (dat g) (cpy_n g)) as L1.
    pose proof (read_length (snd (read (dat g) (cpy_n g))) (del_n g)) as L2.
    pose proof (read_length (ins g) (ins_n g)) as L3.
    unfold len in *. rewrite length_app. lia.
Qed.

Lemma calls_balance (n : nat) (g : ModifiedFileData) :
  inp_c (snd (calls n g)) + len (dat (snd (calls n g)))
  = inp_c g + len (dat g)
  /\ len (List.concat (fst (calls n g))) + dup_c g + len (ins (snd (calls n g)))
     = dup_c (snd (calls n g)) + len (ins g)
  /\ len (ins (snd (calls n g))) <= len (ins g)
  /\ dup_c g <= dup_c (snd (calls n g))
  /\ len (dat (snd (calls n g))) <= len (dat g).
Proof.
  revert g. induction n as [|n IH]; intros g.
  - cbn [calls fst snd List.concat]. unfold len. simpl. lia.
  - rewrite calls_step. cbn [fst snd List.concat].
    destruct (getdata_balance g) as (A1 & A2 & A3 & A4 & A5).
    destruct (IH (snd (getdata g))) as (B1 & B2 & B3 & B4 & B5).
    assert (L : len (fst (getdata g)
                      ++ List.concat (fst (calls n (snd (getdata g)))))
                = len (fst (getdata g))
                  + len (List.concat (fst (calls n (snd (getdata g))))))
      by (unfold len; rewrite length_app; lia).
    rewrite L. lia.
Qed.

Lemma init_fresh (infile urandom : stream) (c : Z) (i d s : option Z)
    (g0 : ModifiedFileData) :
  __init__ infile urandom c i d s = Return g0 ->
  dat g0 = infile /\ ins g0 = urandom
  /\ cpystats g0 = Sample.new /\ insstats g0 = Sample.new
  /\ delstats g0 = Sample.new.
Proof.
  intros H. apply init_returns in H as [_ ->].
  match goal with
  | |- context [reset ?x] =>
      destruct (reset_frame x)
        as (-> & -> & _ & _ & _ & _ & _ & _ & _ & -> & -> & ->)
  end.
  repeat split.
Qed.

(** X1.  After any number of calls on a constructed generator, [inp_c] is
    the number of bytes of the original content that have been read: every
    byte consumed was either copied or skipped, and counted once. *)
Theorem inp_c_counts_consumed_input (infile urandom : stream) (c : Z)
    (i d s : option Z) (g0 : ModifiedFileData) (n : nat) :
  __init__ infile urandom c i d s = Return g0 ->
  inp_c (snd (calls n g0)) = len infile - len (dat (snd (calls n g0)))
  /\ 0 <= inp_c (snd (calls n g0)) <= len infile.
Proof.
  intros H. destruct (init_fresh _ _ _ _ _ _ _ H) as (Hd & _ & Hc & _ & Hx).
  destruct (calls_balance n g0) as (B & _ & _ & _ & B').
  rewrite Hd in B'. unfold inp_c in B at 2. rewrite Hc, Hx, Hd in B. simpl in B.
  unfold len in *. lia.
Qed.

(** X2.  The chunks returned by any number of calls have, together, as
    many bytes as [dup_c] counts plus the bytes taken from the random
    source; so at least [dup_c] and at most [dup_c] plus what the random
    source held. *)
Theorem output_length_is_copied_plus_random (infile urandom : stream)
    (c : Z) (i d s : option Z) (g0 : ModifiedFileData) (n : nat) :
  __init__ infile urandom c i d s = Return g0 ->
  len (List.concat (fst (calls n g0)))
  = dup_c (snd (calls n g0))
    + (len urandom - len (ins (snd (calls n g0))))
  /\ dup_c (snd (calls n g0)) <= len (List.concat (fst (calls n g0)))
     <= dup_c (snd (calls n g0)) + len urandom.
Proof.
  intros H. destruct (init_fresh _ _ _ _ _ _ _ H) as (_ & Hi & Hc & _).
  destruct (calls_balance n g0) as (_ & B & B' & _).
  unfold dup_c in B at 1. rewrite Hc, Hi in B. rewrite Hi in B'.
  simpl in B. unfold len in *. lia.
Qed.

(** ** The three accumulators move together *)

Lemma num_fold_add (l : list Z) (s : Sample.t) :
  Sample.num (fold_left Sample.add l s)
  = Sample.num s + Z.of_nat (List.length l).
Proof.
  revert s. induction l as [|x l IH]; intros s.
  - simpl. lia.
  - cbn [fold_left List.length]. rewrite IH. simpl Sample.num. lia.
Qed.

Lemma recorded_length (n : nat) (g : ModifiedFileData) :
  (List.length (recorded n g) <= n)%nat.
Proof.
  revert g. induction n as [|n IH]; intros g; [simpl; lia|].
  cbn [recorded]. destruct (recorded1 g).
  - simpl. specialize (IH (snd (getdata g))). lia.
  - specialize (IH (snd (getdata g))). lia.
Qed.

Lemma recorded1_bounds (g : ModifiedFileData) (r : Z * Z * Z) :
  recorded1 g = Some r ->
  1 <= cpy_of r <= len (dat g) /\ 0 <= del_of r
  /\ (0 <= cpy_n g -> cpy_of r <= cpy_n g)
  /\ (0 <= del_n g -> del_of r <= del_n g).
Proof.
  unfold recorded1.
  pose proof (read_length (dat g) (cpy_n g)) as L.
  destruct (read (dat g) (cpy_n g)) as [data dat1] eqn:R. cbn [fst snd] in L.
  destruct data as [|b data]; [discriminate|]. cbn [nonempty].
  intros H. injection H as <-. unfold cpy_of, del_of. cbn [fst snd].
  assert (Hc : 0 <= cpy_n g -> len (b :: data) <= cpy_n g).
  { intros Hn. unfold read in R. destruct (cpy_n g <? 0) eqn:E; [lia|].
    injection R as R _. rewrite <- R. unfold len.
    rewrite length_firstn. lia. }
  assert (Hd : 0 <= del_n g -> len (fst (read dat1 (del_n g))) <= del_n g).
  { intros Hn. unfold read. destruct (del_n g <? 0) eqn:E; [lia|].
    cbn [fst]. unfold len. rewrite length_firstn. lia. }
  unfold len in *. simpl List.length in *. repeat split; try lia; assumption.
Qed.

(** X3.  After any number [n] of calls on a constructed generator the three
    accumulators have recorded the same number of values, one per call that
    returned something and so at most [n]; every copy length recorded is at
    least 1 and every delete length at least 0, so the count is at most
    [dup_c] and [inp_c] is at least [dup_c]. *)
Theorem accumulators_count_cycles (infile urandom : stream) (c : Z)
    (i d s : option Z) (g0 : ModifiedFileData) (n : nat) :
  __init__ infile urandom c i d s = Return g0 ->
  let g := snd (calls n g0) in
  Sample.num (cpystats g) = Z.of_nat (List.length (recorded n g0))
  /\ Sample.num (insstats g) = Sample.num (cpystats g)
  /\ Sample.num (delstats g) = Sample.num (cpystats g)
  /\ Sample.num (cpystats g) <= Z.of_nat n
  /\ Forall (fun r => 1 <= cpy_of r /\ 0 <= del_of r) (recorded n g0)
  /\ Sample.num (cpystats g) <= dup_c g <= inp_c g.
Proof.
  intros H g.
  destruct (init_fresh _ _ _ _ _ _ _ H) as (_ & _ & Hc & Hi & Hd).
  destruct (stats_after_calls n g0) as (Sc & Si & Sd). fold g in Sc, Si, Sd.
  rewrite Hc in Sc. rewrite Hi in Si. rewrite Hd in Sd.
  assert (F : Forall (fun r => 1 <= cpy_of r /\ 0 <= del_of r)
                     (recorded n g0)).
  { apply (recorded_invariant (fun _ => True)); [trivial| |exact I].
    intros g' r _ Hr. destruct (recorded1_bounds g' r Hr) as (? & ? & _).
    split; lia. }
  unfold dup_c, inp_c. rewrite Sc, Si, Sd, !num_fold_add, !sum_fold_add.
  rewrite !length_map. cbn [Sample.num Sample.sum Sample.new].
  pose proof (recorded_length n g0) as L.
  split; [lia|]. split; [lia|]. split; [lia|]. split; [lia|].
  split; [exact F|].
  clear - F. induction F as [|r l [Hr1 Hr2] _ IH]; [simpl; lia|].
  cbn [map zsum fold_right List.length] in *. unfold zsum in IH. lia.
Qed.

(** ** The main loop as a sequence of calls *)

Lemma copy_loop_calls (m : nat) :
  forall (g g' : ModifiedFileData) (out out' : bytes),
    copy_loop m g out = Some (out', g') ->
    exists n : nat,
      (n < m)%nat
      /\ out' = out ++ List.concat (fst (calls n g))
      /\ g' = snd (calls n g)
      /\ Forall (fun chunk => chunk <> []) (fst (calls n g))
      /\ fst (getdata g') = [].
Proof.
  induction m as [|m IH]; intros g g' out out' H; [discriminate|].
  cbn [copy_loop] in H.
  destruct (fst (getdata g)) as [|b data] eqn:E.
  - pose proof E as E'. apply getdata_empty_iff in E'.
    rewrite (getdata_none g E') in H. cbn [nonempty] in H.
    injection H as <- <-. exists O. cbn [calls fst snd List.concat].
    rewrite app_nil_r. repeat split; [lia|constructor|exact E].
  - destruct (getdata g) as [data' g1] eqn:G. cbn [fst] in E. subst data'.
    cbn [nonempty] in H.
    destruct (IH _ _ _ _ H) as (n & Hn & Ho & Hg & Hf & He).
    exists (S n). rewrite calls_step, G. cbn [fst snd List.concat].
    split; [lia|]. split; [rewrite Ho, <- app_assoc; reflexivity|].
    split; [exact Hg|]. split; [|exact He].
    constructor; [discriminate|exact Hf].
Qed.

Lemma copy_loop_more_fuel (m : nat) :
  forall (g : ModifiedFileData) (out : bytes)
         (r : bytes * ModifiedFileData) (k : nat),
    copy_loop m g out = Some r -> copy_loop (m + k) g out = Some r.
Proof.
  induction m as [|m IH]; intros g out r k H; [discriminate|].
  cbn [copy_loop Nat.add] in *.
  destruct (getdata g) as [data g1].
  destruct (nonempty data); [now apply IH|exact H].
Qed.

(** ** Copying without changes *)

Lemma ins_off_chunk (urandom : stream) (g : ModifiedFileData) :
  ins_off urandom g -> fst (getdata g) = fst (read (dat g) (cpy_n g)).
Proof.
  intros (_ & Hn & _).
  destruct (fst (read (dat g) (cpy_n g))) as [|b data] eqn:E.
  - now rewrite (getdata_none g E).
  - rewrite getdata_some by (rewrite E; discriminate).
    cbn [fst]. rewrite Hn, read_zero, E. cbn [fst]. apply app_nil_r.
Qed.

Lemma del_off_rest (g : ModifiedFileData) :
  del_off g -> dat (snd (getdata g)) = snd (read (dat g) (cpy_n g)).
Proof.
  intros (_ & Hn & _).
  destruct (fst (read (dat g) (cpy_n g))) as [|b data] eqn:E.
  - rewrite (getdata_none g E). cbn [snd]. symmetry. now apply read_nothing.
  - rewrite getdata_some by (rewrite E; discriminate). cbn [snd].
    destruct (initcycle_frame (after_cycle g)) as (-> & _).
    unfold after_cycle. cbn [dat]. rewrite Hn, read_zero. reflexivity.
Qed.

Lemma plain_copy_calls (urandom : stream) (n : nat) :
  forall g : ModifiedFileData,
    ins_off urandom g -> del_off g ->
    List.concat (fst (calls n g)) ++ dat (snd (calls n g)) = dat g.
Proof.
  induction n as [|n IH]; intros g Hi Hd; [reflexivity|].
  rewrite calls_step. cbn [fst snd List.concat]. rewrite <- app_assoc.
  rewrite IH by (now apply getdata_ins_off || now apply getdata_del_off).
  rewrite (ins_off_chunk urandom g Hi), (del_off_rest g Hd).
  apply read_app.
Qed.

(** X5.  A generator made with insert mean 0 and delete mean 0 copies the
    original unchanged: the run writes exactly the original content, reads
    it to its end, takes nothing from the random source, and ends with
    [inp_c], [tot_c] and [dup_c] all equal to the length of the content. *)
Theorem zero_means_copy_input_unchanged (infile urandom : stream) (c : Z)
    (s : option Z) (g0 : ModifiedFileData) :
  __init__ infile urandom c (Some 0) (Some 0) s = Return g0 ->
  exists f : ModifiedFileData,
    run_from g0 = Some (infile, f)
    /\ dat f = [] /\ ins f = urandom
    /\ inp_c f = len infile /\ tot_c f = len infile
    /\ dup_c f = len infile.
Proof.
  intros H.
  destruct (run_from_returns g0) as (out & f & R & He).
  pose proof R as R'. unfold run_from in R'.
  destruct (copy_loop_calls _ _ _ _ _ R') as (n & _ & Ho & Hf & _).
  cbn [app] in Ho.
  pose proof (init_ins_off _ _ _ _ _ _ H) as I0.
  pose proof (init_del_off _ _ _ _ _ _ H) as D0.
  destruct (init_cpy_n _ _ _ _ _ _ _ H) as (C0 & Hdat & _).
  destruct (init_fresh _ _ _ _ _ _ _ H) as (_ & Hins & Hc & _ & Hx).
  pose proof (calls_invariant _ (getdata_ins_off urandom) n g0 I0) as In.
  pose proof (calls_invariant _ getdata_del_off n g0 D0) as Dn.
  pose proof (calls_cpy_n n g0 C0) as Cn.
  pose proof (plain_copy_calls urandom n g0 I0 D0) as P.
  destruct (calls_balance n g0) as (B1 & B2 & _).
  rewrite <- Hf in In, Dn, Cn, P, B1, B2. rewrite <- Ho in P, B2.
  assert (Hend : dat f = []).
  { apply getdata_empty_iff in He.
    destruct (dat f) as [|b r] eqn:Ed; [reflexivity|].
    exfalso. revert He. rewrite <- Ed. apply read_some; [exact Cn|].
    rewrite Ed. discriminate. }
  rewrite Hend, app_nil_r, Hdat in P. subst out. rewrite P in B2.
  exists f. rewrite R, P. split; [reflexivity|]. split; [exact Hend|].
  destruct In as (_ & _ & Hu & Hs & _). split; [exact Hu|].
  unfold inp_c in B1 at 2. unfold dup_c in B2 at 1.
  rewrite Hc, Hx, Hdat, Hend in B1. rewrite Hc, Hins, Hu in B2.
  unfold tot_c, dup_c, inp_c in *. rewrite Hs.
  unfold len in *. simpl in B1, B2. repeat split; lia.
Qed.

(** ** The constructor and [reset] *)

Lemma init_config (infile urandom : stream) (c : Z) (i d s : option Z)
    (g0 : ModifiedFileData) :
  __init__ infile urandom c i d s = Return g0 ->
  clen g0 = c /\ ilen g0 = default i c /\ dlen g0 = default d c
  /\ seed g0 = default s 1.
Proof.
  intros H. apply init_returns in H as [_ ->].
  match goal with
  | |- context [reset ?x] =>
      destruct (reset_frame x) as (_ & _ & -> & -> & -> & -> & _)
  end.
  repeat split.
Qed.

Lemma init_pending (infile urandom : stream) (c : Z) (i d s : option Z)
    (g0 : ModifiedFileData) :
  __init__ infile urandom c i d s = Return g0 ->
  (default i c = 0 -> ins_n g0 = 0) /\ (default d c = 0 -> del_n g0 = 0).
Proof.
  intros H. apply init_returns in H as [_ ->]. unfold reset.
  split; intros E.
  - match goal with
    | |- context [initcycle ?x] =>
        destruct (initcycle_ins_off x) as [-> _]; [exact E|reflexivity]
    end.
  - match goal with
    | |- context [initcycle ?x] =>
        destruct (initcycle_del_off x) as [-> _]; [exact E|reflexivity]
    end.
Qed.

(** X7.  [reset] does not rewind the original content: on the generator
    that a run has left, [reset] clears the three accumulators and samples
    a first cycle again, but the next run writes nothing, since the content
    is still at its end. *)
Theorem reset_does_not_rewind (infile urandom : stream) (c : Z)
    (i d s : option Z) (g0 f : ModifiedFileData) (out : bytes) :
  __init__ infile urandom c i d s = Return g0 ->
  run_from g0 = Some (out, f) ->
  dat (reset f) = [] /\ ins (reset f) = ins f
  /\ cpystats (reset f) = Sample.new /\ insstats (reset f) = Sample.new
  /\ delstats (reset f) = Sample.new
  /\ run_from (reset f) = Some ([], reset f).
Proof.
  intros H R. unfold run_from in R.
  destruct (copy_loop_calls _ _ _ _ _ R) as (n & _ & _ & Hf & _ & He).
  destruct (init_cpy_n _ _ _ _ _ _ _ H) as (C0 & _).
  pose proof (calls_cpy_n n g0 C0) as Cn. rewrite <- Hf in Cn.
  assert (Hend : dat f = []).
  { apply getdata_empty_iff in He.
    destruct (dat f) as [|b r] eqn:Ed; [reflexivity|].
    exfalso. revert He. rewrite <- Ed. apply read_some; [exact Cn|].
    rewrite Ed. discriminate. }
  destruct (reset_frame f)
    as (Fd & Fi & _ & _ & _ & _ & _ & _ & _ & Fc & Fs & Fx).
  rewrite Fd, Hend. repeat split; try assumption.
  unfold run_from. rewrite Fd, Hend. cbn [List.length copy_loop].
  rewrite getdata_none by (now rewrite Fd, Hend, read_at_end).
  reflexivity.
Qed.

(** ** The main program *)

Lemma bind_return {A B : Type} (m : outcome A) (k : A -> outcome B) (b : B) :
  bind m k = Return b -> exists a : A, m = Return a /\ k a = Return b.
Proof. destruct m as [a|e]; [intros H; now exists a|discriminate]. Qed.

(** The three lengths of a command line, with their defaults. *)
Lemma main_unfold (fuel : nat) (argv : list string) (stdin urandom : stream) :
  main fuel argv stdin urandom
  = if is_help (getarg argv 1 None) then Some ([], Raise (SystemExit 0))
    else
      match
        (c <- getlen (default_str (getarg argv 1 None)) ;;
         i <- getlen (default_str (getarg argv 2 (getarg argv 1 None))) ;;
         d <- getlen (default_str
                        (getarg argv 3
                           (getarg argv 2 (getarg argv 1 None)))) ;;
         __init__ stdin urandom c (Some i) (Some d) None)
      with
      | Raise e => Some ([], Raise e)
      | Return gen =>
          match copy_loop fuel gen [] with
          | None => None
          | Some (out, gen') => Some (out, __str__ gen')
          end
      end.
Proof. reflexivity. Qed.

Lemma main_report_inv (fuel : nat) (argv : list string)
    (stdin urandom : stream) (out : bytes) (rep : report) :
  main fuel argv stdin urandom = Some (out, Return rep) ->
  exists (c i d : Z) (g0 f : ModifiedFileData),
    getlen (default_str (getarg argv 1 None)) = Return c
    /\ getlen (default_str (getarg argv 2 (getarg argv 1 None))) = Return i
    /\ getlen (default_str
                 (getarg argv 3 (getarg argv 2 (getarg argv 1 None))))
       = Return d
    /\ __init__ stdin urandom c (Some i) (Some d) None = Return g0
    /\ copy_loop fuel g0 [] = Some (out, f)
    /\ __str__ f = Return rep.
Proof.
  rewrite main_unfold.
  destruct (is_help (getarg argv 1 None)); [discriminate|].
  match goal with
  | |- match ?m with _ => _ end = _ -> _ => destruct m as [g0|e] eqn:L
  end; [|discriminate].
  apply bind_return in L as (c & Lc & L).
  apply bind_return in L as (i & Li & L).
  apply bind_return in L as (d & Ld & L).
  destruct (copy_loop fuel g0 []) as [[out' f]|] eqn:R; [|discriminate].
  intros H. injection H as -> Hs.
  exists c, i, d, g0, f. repeat split; assumption.
Qed.

(** X9.  When the main program ends with a report, standard input was not
    empty and was read to its end: the report's input count is the length
    of standard input and is the duplicate count plus the deleted bytes;
    the output written has at least as many bytes as the duplicate count
    and at most that many more than the random device held; the total is
    not 0 and the percentage is 100 times the duplicates over the total;
    the means shown are the three lengths of the command line and the
    seed is 1. *)
Theorem main_report_accounts_for_input (fuel : nat) (argv : list string)
    (stdin urandom : stream) (out : bytes) (rep : report) :
  main fuel argv stdin urandom = Some (out, Return rep) ->
  stdin <> []
  /\ rep_inp rep = len stdin
  /\ rep_inp rep = rep_dup rep + Sample.sum (rep_del rep)
  /\ rep_tot rep = rep_dup rep + Sample.sum (rep_ins rep)
  /\ rep_dup rep <= len out <= rep_dup rep + len urandom
  /\ rep_tot rep <> 0
  /\ rep_pct rep
     = (inject_Z 100 * inject_Z (rep_dup rep) / inject_Z (rep_tot rep))%Q
  /\ getlen (default_str (getarg argv 1 None)) = Return (rep_clen rep)
  /\ getlen (default_str (getarg argv 2 (getarg argv 1 None)))
     = Return (rep_ilen rep)
  /\ getlen (default_str
               (getarg argv 3 (getarg argv 2 (getarg argv 1 None))))
     = Return (rep_dlen rep)
  /\ rep_seed rep = 1.
Proof.
  intros H.
  destruct (main_report_inv _ _ _ _ _ _ H)
    as (c & i & d & g0 & f & Lc & Li & Ld & Hinit & R & Hs).
  destruct (copy_loop_calls _ _ _ _ _ R) as (n & _ & Ho & Hf & _ & He).
  cbn [app] in Ho.
  destruct (init_cpy_n _ _ _ _ _ _ _ Hinit) as (C0 & _).
  destruct (init_fresh _ _ _ _ _ _ _ Hinit) as (Hdat & Hins & Hc & Hi & Hx).
  destruct (init_config _ _ _ _ _ _ _ Hinit) as (K1 & K2 & K3 & K4).
  pose proof (calls_cpy_n n g0 C0) as Cn.
  pose proof (calls_config n g0) as Kn.
  destruct (calls_balance n g0) as (B1 & B2 & B3 & _).
  rewrite <- Hf in Cn, Kn, B1, B2, B3. rewrite <- Ho in B2.
  assert (Hend : dat f = []).
  { apply getdata_empty_iff in He.
    destruct (dat f) as [|b r] eqn:Ed; [reflexivity|].
    exfalso. revert He. rewrite <- Ed. apply read_some; [exact Cn|].
    rewrite Ed. discriminate. }
  unfold config in Kn. injection Kn as Q1 Q2 Q3 Q4 _ _ _.
  unfold inp_c in B1 at 2. unfold dup_c in B2 at 1.
  rewrite Hc, Hx, Hdat, Hend in B1. rewrite Hc, Hins in B2.
  rewrite Hins in B3.
  unfold __str__, truediv in Hs.
  destruct (tot_c f =? 0) eqn:T; [discriminate|]. cbn [bind] in Hs.
  injection Hs as <-. cbn [rep_inp rep_tot rep_dup rep_pct rep_cpy rep_ins
                           rep_del rep_clen rep_ilen rep_dlen rep_seed].
  assert (Hne : stdin <> []).
  { intros ->. unfold len in B1. simpl in B1.
    apply Z.eqb_neq in T. apply T.
    assert (E0 : fst (read (dat g0) (cpy_n g0)) = [])
      by now rewrite Hdat, read_at_end.
    assert (Hn0 : forall m, snd (calls m g0) = g0).
    { induction m as [|m IH]; [reflexivity|].
      rewrite calls_last, IH, (getdata_none g0 E0). reflexivity. }
    rewrite Hf, Hn0. unfold tot_c. now rewrite Hc, Hi. }
  rewrite Q1, Q2, Q3, Q4, K1, K2, K3, K4. cbn [default].
  apply Z.eqb_neq in T. unfold inp_c, tot_c, dup_c in *.
  unfold len in *. simpl in B1, B2.
  repeat split; try assumption; try lia.
Qed.

(** X10.  On the command line an omitted insert length takes the copy
    length and an omitted delete length takes the insert length, and
    arguments after the third are ignored: the program behaves as with the
    defaults written out, and a report that ends a run with two lengths
    shows a delete mean equal to the insert mean. *)
Theorem main_length_defaults (fuel : nat) (prog a b c : string)
    (rest : list string) (stdin urandom : stream) :
  main fuel [prog; a] stdin urandom = main fuel [prog; a; a; a] stdin urandom
  /\ main fuel [prog; a; b] stdin urandom
     = main fuel [prog; a; b; b] stdin urandom
  /\ main fuel (prog :: a :: b :: c :: rest) stdin urandom
     = main fuel [prog; a; b; c] stdin urandom
  /\ forall (out : bytes) (rep : report),
       main fuel [prog; a; b] stdin urandom = Some (out, Return rep) ->
       getlen a = Return (rep_clen rep) /\ getlen b = Return (rep_ilen rep)
       /\ rep_dlen rep = rep_ilen rep.
Proof.
  split; [reflexivity|]. split; [reflexivity|]. split; [reflexivity|].
  intros out rep H.
  destruct (main_report_inv _ _ _ _ _ _ H)
    as (c' & i & d & g0 & f & Lc & Li & Ld & Hinit & R & Hs).
  cbn [getarg nth_error default_str] in Lc, Li, Ld.
  rewrite Li in Ld. injection Ld as <-.
  destruct (copy_loop_calls _ _ _ _ _ R) as (n & _ & _ & Hf & _).
  destruct (init_config _ _ _ _ _ _ _ Hinit) as (K1 & K2 & K3 & _).
  pose proof (calls_config n g0) as Kn. rewrite <- Hf in Kn.
  unfold config in Kn. injection Kn as Q1 Q2 Q3 _ _ _ _.
  unfold __str__ in Hs. apply bind_return in Hs as (pct & _ & Hs).
  injection Hs as <-. cbn [rep_clen rep_ilen rep_dlen].
  rewrite Q1, Q2, Q3, K1, K2, K3. cbn [default]. repeat split; assumption.
Qed.

(** X11.  After calls of which at least one returned something, and with
    no negative insert length recorded, [__str__] does not raise: the total
    is at least the duplicate count, which is at least 1, and the
    percentage it reports lies above 0 and is at most 100. *)
Theorem report_after_a_cycle (infile urandom : stream) (c : Z)
    (i d s : option Z) (g0 : ModifiedFileData) (n : nat) :
  __init__ infile urandom c i d s = Return g0 ->
  recorded n g0 <> [] ->
  Forall (fun r => 0 <= ins_of r) (recorded n g0) ->
  exists rep : report,
    __str__ (snd (calls n g0)) = Return rep
    /\ 1 <= rep_dup rep <= rep_tot rep
    /\ (0 < rep_pct rep)%Q /\ (rep_pct rep <= inject_Z 100)%Q.
Proof.
  intros H Hne Hpos.
  destruct (init_fresh _ _ _ _ _ _ _ H) as (_ & _ & Hc & Hi & _).
  destruct (stats_after_calls n g0) as (Sc & Si & _).
  rewrite Hc in Sc. rewrite Hi in Si.
  assert (F : Forall (fun r => 1 <= cpy_of r) (recorded n g0)).
  { apply (recorded_invariant (fun _ => True)); [trivial| |exact I].
    intros g' r _ Hr. now destruct (recorded1_bounds g' r Hr) as ((? & _) & _). }
  assert (D : 1 <= dup_c (snd (calls n g0))).
  { unfold dup_c. rewrite Sc, sum_fold_add. cbn [Sample.sum Sample.new].
    clear - F Hne. destruct F as [|r l Hr F]; [congruence|].
    cbn [map zsum fold_right].
    assert (0 <= fold_right Z.add 0 (map cpy_of l))
      by (clear - F; induction F; simpl; lia).
    lia. }
  assert (T : dup_c (snd (calls n g0)) <= tot_c (snd (calls n g0))).
  { unfold tot_c, dup_c. rewrite Si, sum_fold_add.
    cbn [Sample.sum Sample.new]. clear - Hpos.
    assert (0 <= zsum (map ins_of (recorded n g0)))
      by (induction Hpos; simpl; lia).
    lia. }
  unfold __str__, truediv.
  destruct (tot_c (snd (calls n g0)) =? 0) eqn:Z0; [lia|]. cbn [bind].
  eexists. split; [reflexivity|].
  cbn [rep_dup rep_tot rep_pct].
  split; [lia|].
  destruct (tot_c (snd (calls n g0))) as [|t|t] eqn:Et; [lia| |lia].
  destruct (dup_c (snd (calls n g0))) as [|u|u] eqn:Eu; [lia| |lia].
  unfold Qlt, Qle, Qdiv, Qmult, Qinv, inject_Z. cbn [Qnum Qden].
  split; lia.
Qed.

(** ** Insertion switched off: only deletions *)

Lemma subseq_refl {A : Type} (l : list A) : subseq l l.
Proof. induction l; constructor; assumption. Qed.

Lemma subseq_drop {A : Type} (p l1 l2 : list A) :
  subseq l1 l2 -> subseq l1 (p ++ l2).
Proof. intros H. induction p; [exact H|now constructor]. Qed.

Lemma subseq_prefix {A : Type} (p l1 l2 : list A) :
  subseq l1 l2 -> subseq (p ++ l1) (p ++ l2).
Proof. intros H. induction p; [exact H|now constructor]. Qed.

Lemma ins_off_calls_subseq (urandom : stream) (n : nat) :
  forall g : ModifiedFileData,
    ins_off urandom g ->
    subseq (List.concat (fst (calls n g))) (dat g).
Proof.
  induction n as [|n IH]; intros g Hi.
  - cbn [calls fst List.concat]. induction (dat g); constructor; assumption.
  - rewrite calls_step. cbn [fst List.concat].
    pose proof (IH _ (getdata_ins_off urandom g Hi)) as S.
    rewrite (ins_off_chunk urandom g Hi).
    set (data := fst (read (dat g) (cpy_n g))) in *.
    set (rest := snd (read (dat g) (cpy_n g))).
    assert (D : dat g = data ++ rest)
      by (symmetry; apply read_app).
    assert (T : subseq (List.concat (fst (calls n (snd (getdata g)))))
                       rest).
    { destruct data as [|b data'] eqn:E.
      - rewrite (getdata_none g E) in S |- *. cbn [snd] in *.
        rewrite D in S. exact S.
      - rewrite getdata_some in S |- * by (fold data; rewrite E; discriminate).
        cbn [snd] in *.
        destruct (initcycle_frame (after_cycle g)) as (Fd & _).
        rewrite Fd in S. unfold after_cycle in S. cbn [dat] in S.
        fold rest in S.
        rewrite <- (read_app rest (del_n g)).
        now apply subseq_drop. }
    rewrite D. now apply subseq_prefix.
Qed.

(** X13.  A generator made with insert mean 0 only deletes: the run
    writes a subsequence of the original content (bytes of the original in
    their order, none added), takes nothing from the random source, and
    what it has written is shorter than the original by exactly the sum of
    the recorded delete lengths. *)
Theorem zero_insert_mean_only_deletes (infile urandom : stream) (c : Z)
    (d s : option Z) (g0 : ModifiedFileData) :
  __init__ infile urandom c (Some 0) d s = Return g0 ->
  exists (out : bytes) (f : ModifiedFileData),
    run_from g0 = Some (out, f)
    /\ subseq out infile
    /\ ins f = urandom
    /\ len out = dup_c f
    /\ len out + Sample.sum (delstats f) = len infile.
Proof.
  intros H.
  destruct (run_from_returns g0) as (out & f & R & He).
  pose proof R as R'. unfold run_from in R'.
  destruct (copy_loop_calls _ _ _ _ _ R') as (n & _ & Ho & Hf & _).
  cbn [app] in Ho.
  pose proof (init_ins_off _ _ _ _ _ _ H) as I0.
  destruct (init_cpy_n _ _ _ _ _ _ _ H) as (C0 & Hdat & _).
  destruct (init_fresh _ _ _ _ _ _ _ H) as (_ & Hins & Hc & _ & Hx).
  pose proof (calls_invariant _ (getdata_ins_off urandom) n g0 I0) as In.
  pose proof (calls_cpy_n n g0 C0) as Cn.
  pose proof (ins_off_calls_subseq urandom n g0 I0) as S.
  destruct (calls_balance n g0) as (B1 & B2 & _).
  rewrite <- Hf in In, Cn, B1, B2. rewrite <- Ho in S, B2. rewrite Hdat in S.
  assert (Hend : dat f = []).
  { apply getdata_empty_iff in He.
    destruct (dat f) as [|b r] eqn:Ed; [reflexivity|].
    exfalso. revert He. rewrite <- Ed. apply read_some; [exact Cn|].
    rewrite Ed. discriminate. }
  exists out, f. split; [exact R|]. split; [exact S|].
  destruct In as (_ & _ & Hu & _). split; [exact Hu|].
  unfold inp_c in B1. unfold dup_c in *.
  rewrite Hc, Hx, Hdat, Hend in B1. rewrite Hc, Hins, Hu in B2.
  unfold len in *. simpl in B1, B2. split; lia.
Qed.

(** X14.  A chunk is never longer than the pending copy length plus the
    pending insert length, when the latter is not negative: a caller can
    size its buffer from [cpy_n] and [ins_n].  The copied part alone has at
    most [cpy_n] bytes, and the call consumes at most [cpy_n + del_n] bytes
    of the original when [del_n] is not negative. *)
Theorem chunk_size_bound (g : ModifiedFileData) :
  1 <= cpy_n g -> 0 <= ins_n g -> 0 <= del_n g ->
  len (fst (getdata g)) <= cpy_n g + ins_n g
  /\ dup_c (snd (getdata g)) - dup_c g <= cpy_n g
  /\ len (dat g) - len (dat (snd (getdata g))) <= cpy_n g + del_n g.
Proof.
  intros Hc Hi Hd.
  assert (Rb : forall (f : stream) (k : Z),
             0 <= k -> len (fst (read f k)) <= k).
  { intros f k Hk. unfold read, len. destruct (k <? 0) eqn:E; [lia|].
    cbn [fst]. rewrite length_firstn. lia. }
  pose proof (Rb (dat g) (cpy_n g) ltac:(lia)) as R1.
  pose proof (Rb (ins g) (ins_n g) Hi) as R2.
  pose proof (Rb (snd (read (dat g) (cpy_n g))) (del_n g) Hd) as R3.
  pose proof (read_length (dat g) (cpy_n g)) as L1.
  pose proof (read_length (snd (read (dat g) (cpy_n g))) (del_n g)) as L2.
  destruct (fst (read (dat g) (cpy_n g))) as [|b data] eqn:E.
  - rewrite (getdata_none g E). cbn [fst snd]. unfold len. simpl. lia.
  - rewrite getdata_some by (rewrite E; discriminate). cbn [fst snd].
    destruct (initcycle_frame (after_cycle g))
      as (Fdat & _ & _ & _ & _ & _ & _ & _ & _ & Fc & _).
    unfold dup_c. rewrite Fdat, Fc. unfold after_cycle.
    cbn [dat cpystats Sample.sum Sample.add].
    rewrite E. unfold len in *. rewrite length_app. lia.
Qed.

(** ** Within the interpreter's limits *)

Lemma read_check_ok (size : Z) :
  0 <= size <= ssize_max -> read_check size = Return tt.
Proof.
  unfold read_check, ssize_max. intros H.
  destruct (size <? - 2 ^ 63) eqn:E1; [lia|].
  destruct (2 ^ 63 - 1 <? size) eqn:E2; [lia|]. cbn [orb].
  destruct (size <? -1) eqn:E3; [lia|reflexivity].
Qed.

Lemma and_sample_fits (x : Z) (m : Rng) :
  x = 0 \/ mean_ok x ->
  0 <= fst (and_sample x m (and_lambd x)) <= ssize_max.
Proof.
  unfold and_sample, and_lambd, truthy, ssize_max.
  intros [-> | [_ F]]; [cbn; lia|].
  destruct (x =? 0) eqn:E; cbn [negb].
  - apply Z.eqb_eq in E. subst x. cbn. lia.
  - specialize (F m). unfold ssize_max in F.
    destruct (expovariate m (Float (fdiv_one x))) as [v m']. exact F.
Qed.

Lemma initcycle_in_range (g : ModifiedFileData) :
  configured g -> in_range (initcycle g).
Proof.
  intros C. pose proof C as (Hc & Hi & Hd & (Fc & Fi & Fd)).
  assert (C' : configured (initcycle g)).
  { destruct (initcycle_frame g)
      as (_ & _ & E1 & E2 & E3 & _ & E4 & E5 & E6 & _).
    unfold configured. rewrite E1, E2, E3, E4, E5, E6. exact C. }
  split; [exact C'|].
  unfold initcycle. rewrite Hc, Hi, Hd.
  pose proof (proj2 Fc (rng g)) as Bc.
  destruct (expovariate (rng g) (Float (fdiv_one (clen g)))) as [v m1].
  pose proof (and_sample_fits (ilen g) m1 Fi) as Bi.
  destruct (and_sample (ilen g) m1 (and_lambd (ilen g))) as [i m2].
  pose proof (and_sample_fits (dlen g) m2 Fd) as Bd.
  destruct (and_sample (dlen g) m2 (and_lambd (dlen g))) as [d m3].
  cbn [fst cpy_n ins_n del_n] in *. unfold ssize_max in *. lia.
Qed.

Lemma after_cycle_configured (g : ModifiedFileData) :
  configured g -> configured (after_cycle g).
Proof. intros C. exact C. Qed.

Lemma getdata_in_range (g : ModifiedFileData) :
  in_range g -> in_range (snd (getdata g)).
Proof.
  intros H. destruct (fst (read (dat g) (cpy_n g))) as [|b data] eqn:E.
  - now rewrite (getdata_none g E).
  - rewrite getdata_some by (rewrite E; discriminate). cbn [snd].
    apply initcycle_in_range, after_cycle_configured, H.
Qed.

(** Within range no check refuses: the call returns what [getdata] gives. *)
Lemma getdata_checked_in_range (g : ModifiedFileData) :
  in_range g -> getdata_checked g = Return (getdata g).
Proof.
  intros (_ & Hc & Hi & Hd). unfold getdata_checked.
  rewrite !read_check_ok by lia. cbn [bind].
  now destruct (nonempty (fst (read (dat g) (cpy_n g)))).
Qed.

Lemma to_float_check_ok (x : Z) :
  Z.abs x < float_limit -> to_float_check x = Return tt.
Proof.
  unfold to_float_check. intros H.
  destruct (Z.abs x <? float_limit) eqn:E; [reflexivity|lia].
Qed.

Lemma and_float_check_ok (x : Z) :
  x = 0 \/ mean_ok x -> and_float_check x = Return tt.
Proof.
  unfold and_float_check. intros [-> | [H _]]; [reflexivity|].
  destruct (truthy x); [|reflexivity]. apply to_float_check_ok. lia.
Qed.

(** On means that are handled without an exception the checks of the
    constructor pass, and the generator it returns is within range. *)
Lemma init_checked_in_range (infile urandom : stream) (c : Z)
    (i d s : option Z) :
  means_ok c (default i c) (default d c) ->
  exists g0 : ModifiedFileData,
    init_checked infile urandom c i d s = Return g0
    /\ __init__ infile urandom c i d s = Return g0
    /\ in_range g0.
Proof.
  intros M. pose proof M as ([Hc Fc] & Mi & Md).
  unfold init_checked.
  rewrite to_float_check_ok by lia. cbn [bind].
  destruct (c =? 0) eqn:Z0; [lia|].
  rewrite !and_float_check_ok by assumption. cbn [bind].
  destruct (__init__ infile urandom c i d s) as [g0|e] eqn:E.
  - exists g0. split; [reflexivity|]. split; [reflexivity|].
    apply init_returns in E as [_ ->]. unfold reset.
    apply initcycle_in_range. unfold configured. cbn. exact (conj eq_refl
      (conj eq_refl (conj eq_refl M))).
  - unfold __init__ in E. rewrite Z0 in E. discriminate.
Qed.

Lemma calls_in_range (n : nat) (g : ModifiedFileData) :
  in_range g -> in_range (snd (calls n g)).
Proof. apply (calls_invariant in_range). exact getdata_in_range. Qed.

(** C3, as the program behaves.  For every copy mean [clen > 0] and every
    non-empty original content, when the three means are handled without an
    exception (each 0 for a phase switched off, or positive, convertible to
    a float and sampled as lengths between 0 and [2^63 - 1]), the
    constructor returns a generator on which every call of [getdata] passes
    the size checks of its reads and repeated calls reach the empty result
    after at most as many non-empty calls as the content has bytes, with
    the content read to its end: the pending copy length [cpy_n] is at
    least 1 at every call, and every call that returns something leaves
    strictly fewer bytes of the original content to read. *)
Theorem getdata_reaches_end_of_stream (infile urandom : stream) (clen : Z)
    (ilen dlen seed : option Z) :
  0 < clen -> infile <> [] ->
  means_ok clen (default ilen clen) (default dlen clen) ->
  exists g0 : ModifiedFileData,
    init_checked infile urandom clen ilen dlen seed = Return g0
    /\ (forall k : nat,
          getdata_checked (snd (calls k g0))
          = Return (getdata (snd (calls k g0))))
    /\ (forall k : nat, 1 <= cpy_n (snd (calls k g0)))
    /\ (forall k : nat,
          fst (getdata (snd (calls k g0))) <> [] ->
          (List.length (dat (snd (calls (S k) g0)))
           < List.length (dat (snd (calls k g0))))%nat)
    /\ exists n : nat,
         (n <= List.length infile)%nat
         /\ fst (getdata (snd (calls n g0))) = []
         /\ dat (snd (calls n g0)) = [].
Proof.
  intros Hc Hne M.
  destruct (init_checked_in_range infile urandom clen ilen dlen seed M)
    as (g0 & Ec & E & R).
  exists g0. split; [exact Ec|].
  destruct (init_cpy_n _ _ _ _ _ _ _ E) as (H1 & Hdat & _).
  split.
  { intros k. apply getdata_checked_in_range. now apply calls_in_range. }
  split; [intros k; now apply calls_cpy_n|].
  split.
  - intros k Hk. rewrite calls_last. now apply getdata_advances.
  - destruct (end_reached (List.length infile) g0) as (n & Hn & Hend);
      [rewrite Hdat; lia|exact H1|].
    exists n. split; [exact Hn|]. split; [exact Hend|].
    apply getdata_empty_iff in Hend.
    destruct (dat (snd (calls n g0))) as [|b d] eqn:Ed; [reflexivity|].
    exfalso. revert Hend. rewrite <- Ed. apply read_some.
    + now apply calls_cpy_n.
    + rewrite Ed. discriminate.
Qed.

(** ** The bytes of the random device that a run sees *)






(** X4.  On a generator within range (rates that belong to its means, means
    handled without an exception, pending lengths that a read accepts) the
    loop of the main program, given one more call than the original content
    has bytes, ends and every call of [getdata] passes the size checks of
    its reads; what the loop has written is the concatenation of the chunks
    of the calls that returned something, in order, all of them non-empty,
    and the state it ends in is the state after those calls, on which
    [getdata] returns nothing.  More calls allowed change nothing. *)
Theorem run_is_the_chunks_until_empty (g : ModifiedFileData) :
  in_range g ->
  exists n : nat,
    (n <= List.length (dat g))%nat
    /\ run_from g
       = Some (List.concat (fst (calls n g)), snd (calls n g))
    /\ Forall (fun chunk => chunk <> []) (fst (calls n g))
    /\ fst (getdata (snd (calls n g))) = []
    /\ (forall k : nat,
          getdata_checked (snd (calls k g))
          = Return (getdata (snd (calls k g))))
    /\ forall k : nat,
         copy_loop (S (List.length (dat g)) + k) g [] = run_from g.
Proof.
  intros Hr.
  destruct (run_from_returns g) as (out & g' & R & _).
  pose proof R as R'. unfold run_from in R'.
  destruct (copy_loop_calls _ _ _ _ _ R') as (n & Hn & Ho & Hg & Hf & He).
  exists n. split; [lia|]. rewrite R. cbn [app] in Ho. subst out g'.
  split; [reflexivity|]. split; [exact Hf|]. split; [exact He|].
  split.
  - intros k. apply getdata_checked_in_range. now apply calls_in_range.
  - intros k. apply copy_loop_more_fuel. exact R'.
Qed.

(** X6.  The constructor with the interpreter's checks: it raises
    [OverflowError] when the copy mean does not convert to a float,
    [ZeroDivisionError] when the copy mean is 0, and [OverflowError] when
    the copy mean is accepted and an insert or delete mean other than 0 does
    not convert; insert and delete means of 0 are accepted.  On means that
    are handled without an exception it returns, and the generator holds the
    two sources unread, the means with [ilen] and [dlen] defaulting to
    [clen] and the seed defaulting to 1, empty accumulators, and a first
    cycle with [1 <= cpy_n] whose lengths are sizes that a read accepts and
    whose [ins_n] or [del_n] is 0 when the corresponding mean is 0. *)
Theorem constructor_contract (infile urandom : stream) (c : Z)
    (i d s : option Z) :
  (float_limit <= Z.abs c ->
   init_checked infile urandom c i d s = Raise OverflowError)
  /\ (c = 0 -> init_checked infile urandom c i d s = Raise ZeroDivisionError)
  /\ (c <> 0 -> Z.abs c < float_limit ->
      float_limit <= Z.abs (default i c) ->
      init_checked infile urandom c i d s = Raise OverflowError)
  /\ (c <> 0 -> Z.abs c < float_limit ->
      Z.abs (default i c) < float_limit ->
      float_limit <= Z.abs (default d c) ->
      init_checked infile urandom c i d s = Raise OverflowError)
  /\ (means_ok c (default i c) (default d c) ->
      exists g0 : ModifiedFileData,
        init_checked infile urandom c i d s = Return g0
        /\ dat g0 = infile /\ ins g0 = urandom
        /\ clen g0 = c /\ ilen g0 = default i c /\ dlen g0 = default d c
        /\ seed g0 = default s 1
        /\ cpystats g0 = Sample.new /\ insstats g0 = Sample.new
        /\ delstats g0 = Sample.new
        /\ 1 <= cpy_n g0 <= ssize_max
        /\ 0 <= ins_n g0 <= ssize_max
        /\ 0 <= del_n g0 <= ssize_max
        /\ (ilen g0 = 0 -> ins_n g0 = 0)
        /\ (dlen g0 = 0 -> del_n g0 = 0)).
Proof.
  assert (Big : forall x, float_limit <= Z.abs x ->
                          to_float_check x = Raise OverflowError).
  { intros x H. unfold to_float_check.
    destruct (Z.abs x <? float_limit) eqn:E; [lia|reflexivity]. }
  assert (BigAnd : forall x, float_limit <= Z.abs x ->
                             and_float_check x = Raise OverflowError).
  { intros x H. unfold and_float_check, truthy.
    destruct (x =? 0) eqn:E; [|now apply Big].
    apply Z.eqb_eq in E. subst x. exfalso. revert H.
    unfold float_limit. cbn [Z.abs]. apply Z.lt_nge. reflexivity. }
  assert (SmallAnd : forall x, Z.abs x < float_limit ->
                               and_float_check x = Return tt).
  { intros x H. unfold and_float_check.
    destruct (truthy x); [now apply to_float_check_ok|reflexivity]. }
  split; [intros H; unfold init_checked; now rewrite Big|].
  split; [intros ->; reflexivity|].
  split.
  { intros Hc Hs Hi. unfold init_checked.
    rewrite to_float_check_ok by exact Hs. cbn [bind].
    destruct (c =? 0) eqn:Z0; [lia|]. now rewrite BigAnd. }
  split.
  { intros Hc Hs Hi Hd. unfold init_checked.
    rewrite to_float_check_ok by exact Hs. cbn [bind].
    destruct (c =? 0) eqn:Z0; [lia|].
    rewrite SmallAnd by exact Hi. cbn [bind]. now rewrite BigAnd. }
  intros M.
  destruct (init_checked_in_range infile urandom c i d s M)
    as (g0 & Ec & E & (_ & Rc & Ri & Rd)).
  exists g0. split; [exact Ec|].
  destruct (init_fresh _ _ _ _ _ _ _ E) as (H1 & H2 & H3 & H4 & H5).
  destruct (init_config _ _ _ _ _ _ _ E) as (K1 & K2 & K3 & K4).
  destruct (init_pending _ _ _ _ _ _ _ E) as (P1 & P2).
  rewrite K2, K3. repeat split; try assumption; lia.
Qed.

(** X8.  The main program on a command line whose three lengths, when they
    parse, are handled without an exception (or whose copy length is 0)
    ends, whatever standard input and the random device hold: allowed one
    more call of [getdata] than standard input has bytes it gives a result,
    allowing more calls gives the same result, and the generator it
    constructs passes the checks of the constructor and, at every call, the
    size checks of the reads. *)
Theorem main_ends (argv : list string) (stdin urandom : stream) :
  (forall c i d : Z,
      getlen (default_str (getarg argv 1 None)) = Return c ->
      getlen (default_str (getarg argv 2 (getarg argv 1 None))) = Return i ->
      getlen (default_str
                (getarg argv 3 (getarg argv 2 (getarg argv 1 None))))
      = Return d ->
      c = 0 \/ means_ok c i d) ->
  (exists r : bytes * outcome report,
      main (S (List.length stdin)) argv stdin urandom = Some r
      /\ forall k : nat,
           main (S (List.length stdin) + k) argv stdin urandom = Some r)
  /\ forall (c i d : Z) (g0 : ModifiedFileData),
       getlen (default_str (getarg argv 1 None)) = Return c ->
       getlen (default_str (getarg argv 2 (getarg argv 1 None)))
       = Return i ->
       getlen (default_str
                 (getarg argv 3 (getarg argv 2 (getarg argv 1 None))))
       = Return d ->
       __init__ stdin urandom c (Some i) (Some d) None = Return g0 ->
       init_checked stdin urandom c (Some i) (Some d) None = Return g0
       /\ forall k : nat,
            getdata_checked (snd (calls k g0))
            = Return (getdata (snd (calls k g0))).
Proof.
  intros Hok. split.
  - setoid_rewrite main_unfold.
    destruct (is_help (getarg argv 1 None));
      [eexists; split; [reflexivity|intros; reflexivity]|].
    match goal with
    | |- context [match ?m with _ => _ end] => destruct m as [g0|e] eqn:L
    end; [|eexists; split; [reflexivity|intros; reflexivity]].
    apply bind_return in L as (c & _ & L).
    apply bind_return in L as (i & _ & L).
    apply bind_return in L as (d & _ & L).
    destruct (init_cpy_n _ _ _ _ _ _ _ L) as (_ & Hdat & _).
    destruct (copy_loop_ends (S (List.length stdin)) g0 [])
      as (out & f & R & _); [rewrite Hdat; lia|].
    exists (out, __str__ f). rewrite R. split; [reflexivity|].
    intros k. now rewrite (copy_loop_more_fuel _ _ _ _ k R).
  - intros c i d g0 Lc Li Ld E.
    destruct (Hok c i d Lc Li Ld) as [-> | M]; [discriminate E|].
    destruct (init_checked_in_range stdin urandom c (Some i) (Some d) None M)
      as (g0' & Ec & E' & R).
    rewrite E in E'. injection E' as <-.
    split; [exact Ec|].
    intros k. apply getdata_checked_in_range. now apply calls_in_range.
Qed.

End Generator.

(** The type of floats and of generator states can be read off the
    generator. *)
Arguments dat {float Rng} g : rename.
Arguments ins {float Rng} g : rename.
Arguments clen {float Rng} g : rename.
Arguments ilen {float Rng} g : rename.
Arguments dlen {float Rng} g : rename.
Arguments seed {float Rng} g : rename.
Arguments rng {float Rng} g : rename.
Arguments cpystats {float Rng} g : rename.
Arguments insstats {float Rng} g : rename.
Arguments delstats {float Rng} g : rename.
Arguments cpy_n {float Rng} g : rename.
Arguments ins_n {float Rng} g : rename.
Arguments del_n {float Rng} g : rename.
Arguments inp_c {float Rng} g.
Arguments tot_c {float Rng} g.
Arguments dup_c {float Rng} g.
Arguments getdata {float} int_of_float {Rng} expovariate g.
Arguments calls {float} int_of_float {Rng} expovariate n g.
Arguments recorded {float} int_of_float {Rng} expovariate n g.
Arguments run_from {float} int_of_float {Rng} expovariate g.
Arguments __init__ {float} fdiv_one int_of_float {Rng} Random expovariate
  infile urandom clen ilen dlen seed.

(** ** Length arguments *)

Section Lengths.

Local Open Scope string_scope.

(** The characters of the decimal text of [d]. *)
Definition chars_of_uint (d : Decimal.uint) : list ascii :=
  list_ascii_of_string (NilEmpty.string_of_uint d).

Lemma digits_after_digit (d : Decimal.uint) (acc : Z) :
  d <> Decimal.Nil ->
  digits (chars_of_uint d) acc false = digits (chars_of_uint d) acc true.
Proof. destruct d; intros H; [congruence| reflexivity ..]. Qed.

Lemma digits_of_uint_acc (d : Decimal.uint) :
  forall p : positive,
    digits (chars_of_uint d) (Z.pos p) true
    = Some (Z.pos (Pos.of_uint_acc d p)).
Proof.
  unfold chars_of_uint.
  induction d as [|d IH|d IH|d IH|d IH|d IH|d IH|d IH|d IH|d IH|d IH];
    intros p; [reflexivity| ..];
    cbn [NilEmpty.string_of_uint list_ascii_of_string digits
         Pos.of_uint_acc];
    (match goal with
     | |- context [Ascii.eqb ?c "_"%char] =>
         change (Ascii.eqb c "_"%char) with false; cbv iota
     end);
    (match goal with
     | |- context [digit_of ?c] =>
         let v := eval vm_compute in (digit_of c) in
         change (digit_of c) with v; cbv iota
     end);
    rewrite <- IH; f_equal; lia.
Qed.

Lemma digits_of_uint (d : Decimal.uint) :
  digits (chars_of_uint d) 0 true = Some (Z.of_N (Pos.of_uint d)).
Proof.
  unfold chars_of_uint.
  induction d as [|d IH|d IH|d IH|d IH|d IH|d IH|d IH|d IH|d IH|d IH];
    [reflexivity|exact IH| ..];
    cbn [NilEmpty.string_of_uint list_ascii_of_string digits Pos.of_uint];
    (match goal with
     | |- context [Ascii.eqb ?c "_"%char] =>
         change (Ascii.eqb c "_"%char) with false; cbv iota
     end);
    (match goal with
     | |- context [digit_of ?c] =>
         let v := eval vm_compute in (digit_of c) in
         change (digit_of c) with v; cbv iota
     end);
    apply (digits_of_uint_acc d).
Qed.

Definition plain (c : ascii) : Prop :=
  is_space c = false /\ char_in c "kKmMgG" = false.

Lemma plain_uint (d : Decimal.uint) : Forall plain (chars_of_uint d).
Proof.
  unfold chars_of_uint.
  induction d; cbn [NilEmpty.string_of_uint list_ascii_of_string];
    constructor; try exact IHd; split; reflexivity.
Qed.

Lemma lstrip_plain (s : list ascii) : Forall plain s -> lstrip s = s.
Proof.
  destruct 1 as [|c s [Hc _] _]; [reflexivity|].
  cbn [lstrip]. now rewrite Hc.
Qed.

Lemma strip_plain (s : list ascii) : Forall plain s -> strip s = s.
Proof.
  intros H. unfold strip. rewrite (lstrip_plain s H).
  rewrite lstrip_plain by (now apply Forall_rev). apply rev_involutive.
Qed.

Lemma string_of_list_ascii_app (a b : list ascii) :
  string_of_list_ascii (a ++ b)
  = string_of_list_ascii a ++ string_of_list_ascii b.
Proof. induction a as [|c a IH]; simpl; [reflexivity|now rewrite IH]. Qed.

Lemma last_char_suffix (s : string) (c : ascii) :
  last_char (s ++ String c "") = Some c
  /\ but_last (s ++ String c "") = s.
Proof.
  induction s as [|x s [IH1 IH2]]; [split; reflexivity|].
  cbn [append last_char but_last]. rewrite IH1, IH2.
  destruct (s ++ String c "") eqn:E; [|split; reflexivity].
  destruct s; discriminate.
Qed.

Lemma last_char_plain (s : string) (c : ascii) :
  Forall plain (list_ascii_of_string s) ->
  last_char s = Some c -> char_in c "kKmMgG" = false.
Proof.
  induction s as [|x s IH]; [discriminate|].
  cbn [list_ascii_of_string]. intros H. inversion H as [|? ? [_ Hx] Hs]; subst.
  cbn [last_char]. destruct s; [intros E; now injection E as <-|].
  now apply IH.
Qed.

Lemma char_in_split (c : ascii) :
  char_in c "kKmMgG" = false ->
  char_in c "kK" = false /\ char_in c "mM" = false
  /\ char_in c "gG" = false.
Proof.
  cbn [char_in]. rewrite !orb_false_r.
  intros H. repeat (apply orb_false_elim in H as [? H]).
  repeat split; apply orb_false_intro; assumption.
Qed.

Lemma split_sign_uint (d : Decimal.uint) :
  d <> Decimal.Nil ->
  split_sign (chars_of_uint d) = (false, chars_of_uint d).
Proof. destruct d; intros H; [congruence|reflexivity ..]. Qed.

Lemma string_of_uint_nonnil (d : Decimal.uint) :
  d <> Decimal.Nil ->
  NilZero.string_of_uint d = NilEmpty.string_of_uint d.
Proof. destruct d; intros H; [congruence|reflexivity ..]. Qed.

Lemma int_of_uint (d : Decimal.uint) :
  d <> Decimal.Nil ->
  digits (chars_of_uint d) 0 false = Some (Z.of_N (Pos.of_uint d)).
Proof.
  intros H. rewrite digits_after_digit by exact H. apply digits_of_uint.
Qed.

Lemma plain_decimal (z : Z) :
  Forall plain (list_ascii_of_string (decimal z)).
Proof.
  unfold decimal. destruct z as [|p|p]; cbn [Z.to_int NilZero.string_of_int].
  - repeat constructor.
  - rewrite string_of_uint_nonnil by apply Unsigned.to_uint_nonnil.
    apply plain_uint.
  - rewrite string_of_uint_nonnil by apply Unsigned.to_uint_nonnil.
    cbn [list_ascii_of_string]. constructor; [split; reflexivity|].
    apply plain_uint.
Qed.

(** [int] reads back the decimal text of any integer. *)
Lemma int_of_str_decimal (z : Z) : int_of_str (decimal z) = Return z.
Proof.
  unfold int_of_str. rewrite strip_plain by apply plain_decimal.
  unfold decimal. destruct z as [|p|p]; cbn [Z.to_int NilZero.string_of_int].
  - reflexivity.
  - rewrite string_of_uint_nonnil by apply Unsigned.to_uint_nonnil.
    fold (chars_of_uint (Pos.to_uint p)).
    rewrite split_sign_uint, int_of_uint by apply Unsigned.to_uint_nonnil.
    now rewrite Unsigned.of_to.
  - rewrite string_of_uint_nonnil by apply Unsigned.to_uint_nonnil.
    cbn [list_ascii_of_string]. fold (chars_of_uint (Pos.to_uint p)).
    cbn [split_sign]. change (Ascii.eqb "-" "-") with true. cbv iota.
    rewrite int_of_uint by apply Unsigned.to_uint_nonnil.
    now rewrite Unsigned.of_to.
Qed.

Lemma getlen_suffix (z : Z) (c : ascii) :
  getlen (decimal z ++ String c "")
  = if char_in c "kK" then Return (z * 1024)
    else if char_in c "mM" then Return (z * 1024 * 1024)
    else if char_in c "gG" then Return (z * 1024 * 1024 * 1024)
    else int_of_str (decimal z ++ String c "").
Proof.
  unfold getlen. destruct (last_char_suffix (decimal z) c) as [-> ->].
  rewrite int_of_str_decimal. cbn [bind].
  reflexivity.
Qed.

Lemma last_char_none (s : string) : last_char s = None -> s = "".
Proof.
  induction s as [|x s IH]; [reflexivity|].
  cbn [last_char]. destruct s; [discriminate|].
  intros E. apply IH in E. discriminate.
Qed.

Lemma getlen_plain (z : Z) : getlen (decimal z) = Return z.
Proof.
  unfold getlen. destruct (last_char (decimal z)) as [c|] eqn:E.
  - pose proof (last_char_plain _ _ (plain_decimal z) E) as H.
    apply char_in_split in H as (-> & -> & ->).
    apply int_of_str_decimal.
  - exfalso. apply last_char_none in E. unfold decimal in E.
    destruct z as [|p|p]; cbn [Z.to_int NilZero.string_of_int] in E;
      [vm_compute in E; discriminate| |discriminate].
    pose proof (Unsigned.to_uint_nonnil p) as N.
    rewrite string_of_uint_nonnil in E by exact N.
    destruct (Pos.to_uint p); [congruence|discriminate ..].
Qed.

(** C9.  [getlen] maps the decimal text of an integer, with an optional
    suffix, to a number of bytes: a final [k] or [K] multiplies by 1024,
    [m] or [M] by 1024², [g] or [G] by 1024³, and without a suffix the
    value is the integer itself; in particular [10k] gives 10240, [2m]
    gives 2097152, [1g] gives 1073741824 and [500] gives 500. *)
Theorem getlen_suffixes :
  (forall z : Z,
      getlen (decimal z ++ "k") = Return (z * 1024)
      /\ getlen (decimal z ++ "K") = Return (z * 1024)
      /\ getlen (decimal z ++ "m") = Return (z * 1024 ^ 2)
      /\ getlen (decimal z ++ "M") = Return (z * 1024 ^ 2)
      /\ getlen (decimal z ++ "g") = Return (z * 1024 ^ 3)
      /\ getlen (decimal z ++ "G") = Return (z * 1024 ^ 3)
      /\ getlen (decimal z) = Return z)
  /\ getlen "10k" = Return 10240
  /\ getlen "2m" = Return 2097152
  /\ getlen "1g" = Return 1073741824
  /\ getlen "500" = Return 500.
Proof.
  split; [|repeat split; reflexivity].
  intros z. rewrite !getlen_suffix, getlen_plain. cbn [char_in].
  repeat split; cbv [Ascii.eqb Bool.eqb orb]; f_equal; lia.
Qed.

Lemma char_in_two (c a b : ascii) :
  char_in c (String a (String b "")) = true -> c = a \/ c = b.
Proof.
  cbn [char_in]. rewrite orb_false_r. intros H.
  apply orb_true_iff in H as [H|H]; apply Ascii.eqb_eq in H; auto.
Qed.

(** X12.  [getlen] looks at the last character only: the empty string
    raises [IndexError]; after a final [k], [K], [m], [M], [g] or [G] the
    rest of the string goes to [int], whose error is passed on and whose
    value is multiplied by 1024, 1024*1024 or 1024*1024*1024, so a suffix
    alone raises [ValueError]; with any other last character the whole
    string goes to [int]. *)
Theorem getlen_by_last_character (s : string) (c : ascii) :
  getlen "" = Raise IndexError
  /\ (char_in c "kK" = true ->
      getlen (s ++ String c "")
      = (n <- int_of_str s ;; Return (n * 1024)))
  /\ (char_in c "mM" = true ->
      getlen (s ++ String c "")
      = (n <- int_of_str s ;; Return (n * 1024 * 1024)))
  /\ (char_in c "gG" = true ->
      getlen (s ++ String c "")
      = (n <- int_of_str s ;; Return (n * 1024 * 1024 * 1024)))
  /\ (char_in c "kKmMgG" = true -> getlen (String c "") = Raise ValueError)
  /\ (char_in c "kKmMgG" = false ->
      getlen (s ++ String c "") = int_of_str (s ++ String c "")).
Proof.
  split; [reflexivity|].
  assert (U : getlen (s ++ String c "")
              = if char_in c "kK" then
                  n <- int_of_str s ;; Return (n * 1024)
                else if char_in c "mM" then
                  n <- int_of_str s ;; Return (n * 1024 * 1024)
                else if char_in c "gG" then
                  n <- int_of_str s ;; Return (n * 1024 * 1024 * 1024)
                else int_of_str (s ++ String c "")).
  { unfold getlen. destruct (last_char_suffix s c) as [-> ->]. reflexivity. }
  split; [intros H; now rewrite U, H|].
  split.
  { intros H. rewrite U.
    destruct (char_in_two _ _ _ H) as [-> | ->]; reflexivity. }
  split.
  { intros H. rewrite U.
    destruct (char_in_two _ _ _ H) as [-> | ->]; reflexivity. }
  split.
  - cbn [char_in]. rewrite orb_false_r. intros H.
    repeat (apply orb_true_iff in H as [H|H];
            [apply Ascii.eqb_eq in H; subst c; reflexivity|]).
    apply Ascii.eqb_eq in H; subst c; reflexivity.
  - intros H. rewrite U.
    apply char_in_split in H as (-> & -> & ->). reflexivity.
Qed.

End Lengths.

(** ** Worked instances

    The generator over the sampler of [Toy], on a twelve-byte original and
    three bytes in the random device.  With seed 1 the first cycle asks for
    2 copied, 12 inserted and 3 deleted bytes. *)

Module Worked.

Import Byte.

Local Abbreviation init :=
  (__init__ Toy.fdiv_one Toy.int_of_float Toy.Random Toy.expovariate).
Local Abbreviation getdata := (getdata Toy.int_of_float Toy.expovariate).
Local Abbreviation calls := (calls Toy.int_of_float Toy.expovariate).
Local Abbreviation recorded := (recorded Toy.int_of_float Toy.expovariate).
Local Abbreviation run_from := (run_from Toy.int_of_float Toy.expovariate).
Local Abbreviation reset :=
  (reset Toy.float Toy.int_of_float Toy.Rng Toy.Random Toy.expovariate).

Definition content : stream :=
  [x41; x42; x43; x44; x45; x46; x47; x48; x49; x4a; x4b; x4c].

Definition urandom_a : stream := [x01; x02; x03].

(** The generator that [ModifiedFileData(infile, 2, 3, 1)] builds. *)
Definition gen (urandom : stream) : ModifiedFileData Toy.float Toy.Rng :=
  mkGen Toy.float Toy.Rng content urandom 2 3 1 1
        (Float (1 # 2)%Q) (Float (1 # 3)%Q) (Float 1%Q) 6
        Sample.new Sample.new Sample.new 2 12 3.

Lemma init_gen (urandom : stream) :
  init content urandom 2 (Some 3) (Some 1) None = Return (gen urandom).
Proof. reflexivity. Qed.

(** The generator on an empty original. *)
Definition gen_empty : ModifiedFileData Toy.float Toy.Rng :=
  mkGen Toy.float Toy.Rng [] urandom_a 2 3 1 1
        (Float (1 # 2)%Q) (Float (1 # 3)%Q) (Float 1%Q) 6
        Sample.new Sample.new Sample.new 2 12 3.

(** A generator whose first copy read is cut short by the end of a
    three-byte original: it asks for 5 copied, 4 inserted and 3 deleted
    bytes. *)
Definition gen_short : ModifiedFileData Toy.float Toy.Rng :=
  mkGen Toy.float Toy.Rng [x41; x42; x43]
        [x01; x02; x03; x04; x05; x06] 5 1 1 1
        (Float (1 # 5)%Q) (Float 1%Q) (Float 1%Q) 6
        Sample.new Sample.new Sample.new 5 4 3.

Lemma init_gen_short :
  init [x41; x42; x43] [x01; x02; x03; x04; x05; x06] 5 (Some 1) (Some 1)
       None
  = Return gen_short.
Proof. reflexivity. Qed.

(** Generators with the insert phase and with the delete phase off. *)
Definition gen_ins_off : ModifiedFileData Toy.float Toy.Rng :=
  mkGen Toy.float Toy.Rng content urandom_a 2 0 1 1
        (Float (1 # 2)%Q) (Int 0) (Float 1%Q) 13
        Sample.new Sample.new Sample.new 2 0 4.

Definition gen_del_off : ModifiedFileData Toy.float Toy.Rng :=
  mkGen Toy.float Toy.Rng content urandom_a 2 3 0 1
        (Float (1 # 2)%Q) (Float (1 # 3)%Q) (Int 0) 13
        Sample.new Sample.new Sample.new 2 12 0.

Lemma init_gen_ins_off :
  init content urandom_a 2 (Some 0) (Some 1) None = Return gen_ins_off.
Proof. reflexivity. Qed.

Lemma init_gen_del_off :
  init content urandom_a 2 (Some 3) (Some 0) None = Return gen_del_off.
Proof. reflexivity. Qed.


Lemma byte_accounting_witness :
  init content urandom_a 2 (Some 3) (Some 1) None = Return (gen urandom_a)
  /\ (let g := snd (calls 3 (gen urandom_a)) in
      let h := recorded 3 (gen urandom_a) in
      cpystats g = Sample.of_list (map cpy_of h)
      /\ insstats g = Sample.of_list (map ins_of h)
      /\ delstats g = Sample.of_list (map del_of h)
      /\ inp_c g = zsum (map cpy_of h) + zsum (map del_of h)
      /\ tot_c g = zsum (map cpy_of h) + zsum (map ins_of h)).
Proof.
  split; [reflexivity|].
  apply (byte_accounting Toy.float Toy.fdiv_one Toy.int_of_float Toy.Rng
           Toy.Random Toy.expovariate content urandom_a 2 (Some 3) (Some 1)
           None (gen urandom_a) 3).
  reflexivity.
Defined.

Lemma getdata_end_of_stream_idempotent_witness :
  fst (getdata gen_empty) = []
  /\ snd (getdata gen_empty) = gen_empty
  /\ forall n : nat,
       calls n (snd (getdata gen_empty))
       = (repeat [] n, snd (getdata gen_empty)).
Proof.
  split; [reflexivity|].
  apply (getdata_end_of_stream_idempotent Toy.float Toy.int_of_float
           Toy.Rng Toy.expovariate gen_empty).
  reflexivity.
Defined.



Lemma zero_mean_disables_phase_witness :
  init content urandom_a 2 (Some 0) (Some 1) None = Return gen_ins_off
  /\ init content urandom_a 2 (Some 3) (Some 0) None = Return gen_del_off
  /\ (let g := snd (calls 2 gen_ins_off) in
      ins_n g = 0
      /\ rng (initcycle Toy.float Toy.int_of_float Toy.Rng
                        Toy.expovariate g)
         = snd (and_sample Toy.float Toy.int_of_float Toy.Rng
                  Toy.expovariate (dlen g)
                  (snd (Toy.expovariate (rng g)
                          (clambd Toy.float Toy.Rng g)))
                  (dlambd Toy.float Toy.Rng g))
      /\ Forall (fun r => ins_of r = 0) (recorded 2 gen_ins_off)
      /\ Sample.sum (insstats g) = 0
      /\ ins g = urandom_a
      /\ fst (getdata g) = fst (read (dat g) (cpy_n g)))
  /\ (let g := snd (calls 2 gen_del_off) in
      del_n g = 0
      /\ rng (initcycle Toy.float Toy.int_of_float Toy.Rng
                        Toy.expovariate g)
         = snd (and_sample Toy.float Toy.int_of_float Toy.Rng
                  Toy.expovariate (ilen g)
                  (snd (Toy.expovariate (rng g)
                          (clambd Toy.float Toy.Rng g)))
                  (ilambd Toy.float Toy.Rng g))
      /\ Forall (fun r => del_of r = 0) (recorded 2 gen_del_off)
      /\ Sample.sum (delstats g) = 0
      /\ dat (snd (getdata g)) = snd (read (dat g) (cpy_n g))).
Proof.
  split; [reflexivity|]. split; [reflexivity|]. split.
  - apply (proj1 (zero_mean_disables_phase Toy.float Toy.fdiv_one
                    Toy.int_of_float Toy.Rng Toy.Random Toy.expovariate)
                 content urandom_a 2 (Some 1) None gen_ins_off 2%nat).
    reflexivity.
  - apply (proj2 (zero_mean_disables_phase Toy.float Toy.fdiv_one
                    Toy.int_of_float Toy.Rng Toy.Random Toy.expovariate)
                 content urandom_a 2 (Some 3) None gen_del_off 2%nat).
    reflexivity.
Defined.

(** On [gen_short] the copy read asks for 5 bytes and gets the 3 that the
    original has; the chunk ends with 4 bytes of the random device, placed
    after the last byte of the original. *)
Lemma last_chunk_ends_with_inserted_bytes :
  fst (getdata gen_short) = [x41; x42; x43; x01; x02; x03; x04]
  /\ dat (snd (getdata gen_short)) = []
  /\ delstats (snd (getdata gen_short)) = Sample.mk 1 0 0.
Proof. vm_compute. repeat split. Qed.


(** The cycle that [getdata] samples on [gen_short], in numbers: the
    generator state 6 draws a copy length of 5, then 2 for the insert and 2
    for the delete length, and is left at 5. *)
Lemma next_cycle_is_sampled :
  cpy_n gen_short = 5 /\ ins_n gen_short = 4 /\ del_n gen_short = 3
  /\ rng gen_short = 6
  /\ cpy_n (snd (getdata gen_short)) = 5
  /\ ins_n (snd (getdata gen_short)) = 2
  /\ del_n (snd (getdata gen_short)) = 2
  /\ rng (snd (getdata gen_short)) = 5.
Proof. vm_compute. repeat split. Qed.

Local Abbreviation main :=
  (main Toy.float Toy.fdiv_one Toy.int_of_float Toy.Rng Toy.Random
        Toy.expovariate).
Local Abbreviation str :=
  (__str__ Toy.float Toy.Rng).

Lemma inp_c_counts_consumed_input_witness :
  init content urandom_a 2 (Some 3) (Some 1) None = Return (gen urandom_a)
  /\ inp_c (snd (calls 2 (gen urandom_a)))
     = len content - len (dat (snd (calls 2 (gen urandom_a))))
  /\ 0 <= inp_c (snd (calls 2 (gen urandom_a))) <= len content.
Proof.
  split; [reflexivity|].
  apply (inp_c_counts_consumed_input Toy.float Toy.fdiv_one
           Toy.int_of_float Toy.Rng Toy.Random Toy.expovariate
           content urandom_a 2 (Some 3) (Some 1) None (gen urandom_a) 2).
  reflexivity.
Defined.

Lemma output_length_is_copied_plus_random_witness :
  init content urandom_a 2 (Some 3) (Some 1) None = Return (gen urandom_a)
  /\ len (List.concat (fst (calls 2 (gen urandom_a))))
     = dup_c (snd (calls 2 (gen urandom_a)))
       + (len urandom_a - len (ins (snd (calls 2 (gen urandom_a)))))
  /\ dup_c (snd (calls 2 (gen urandom_a)))
     <= len (List.concat (fst (calls 2 (gen urandom_a))))
     <= dup_c (snd (calls 2 (gen urandom_a))) + len urandom_a.
Proof.
  split; [reflexivity|].
  apply (output_length_is_copied_plus_random Toy.float Toy.fdiv_one
           Toy.int_of_float Toy.Rng Toy.Random Toy.expovariate
           content urandom_a 2 (Some 3) (Some 1) None (gen urandom_a) 2).
  reflexivity.
Defined.

Lemma accumulators_count_cycles_witness :
  init content urandom_a 2 (Some 3) (Some 1) None = Return (gen urandom_a)
  /\ (let g := snd (calls 6 (gen urandom_a)) in
      Sample.num (cpystats g)
      = Z.of_nat (List.length (recorded 6 (gen urandom_a)))
      /\ Sample.num (insstats g) = Sample.num (cpystats g)
      /\ Sample.num (delstats g) = Sample.num (cpystats g)
      /\ Sample.num (cpystats g) <= Z.of_nat 6
      /\ Forall (fun r => 1 <= cpy_of r /\ 0 <= del_of r)
                (recorded 6 (gen urandom_a))
      /\ Sample.num (cpystats g) <= dup_c g <= inp_c g).
Proof.
  split; [reflexivity|].
  apply (accumulators_count_cycles Toy.float Toy.fdiv_one
           Toy.int_of_float Toy.Rng Toy.Random Toy.expovariate
           content urandom_a 2 (Some 3) (Some 1) None (gen urandom_a) 6).
  reflexivity.
Defined.

Lemma zero_means_copy_input_unchanged_witness :
  exists g0 : ModifiedFileData Toy.float Toy.Rng,
    init content urandom_a 2 (Some 0) (Some 0) None = Return g0
    /\ exists f : ModifiedFileData Toy.float Toy.Rng,
         run_from g0 = Some (content, f)
         /\ dat f = [] /\ ins f = urandom_a
         /\ inp_c f = len content /\ tot_c f = len content
         /\ dup_c f = len content.
Proof.
  eexists. split; [reflexivity|].
  apply (zero_means_copy_input_unchanged Toy.float Toy.fdiv_one
           Toy.int_of_float Toy.Rng Toy.Random Toy.expovariate
           content urandom_a 2 None).
  reflexivity.
Defined.

Lemma reset_does_not_rewind_witness :
  init content urandom_a 2 (Some 3) (Some 1) None = Return (gen urandom_a)
  /\ exists (out : bytes) (f : ModifiedFileData Toy.float Toy.Rng),
       run_from (gen urandom_a) = Some (out, f)
       /\ dat (reset f) = [] /\ ins (reset f) = ins f
       /\ cpystats (reset f) = Sample.new
       /\ insstats (reset f) = Sample.new
       /\ delstats (reset f) = Sample.new
       /\ run_from (reset f) = Some ([], reset f).
Proof.
  split; [reflexivity|]. eexists. eexists.
  split; [vm_compute; reflexivity|].
  eapply (reset_does_not_rewind Toy.float Toy.fdiv_one
            Toy.int_of_float Toy.Rng Toy.Random Toy.expovariate
            content urandom_a 2 (Some 3) (Some 1) None (gen urandom_a));
    [reflexivity|vm_compute; reflexivity].
Defined.

Lemma main_report_accounts_for_input_witness :
  exists (out : bytes) (rep : report),
    main 13 ["modfile"; "2"; "3"; "1"]%string content urandom_a
    = Some (out, Return rep)
    /\ content <> []
    /\ rep_inp rep = len content
    /\ rep_inp rep = rep_dup rep + Sample.sum (rep_del rep)
    /\ rep_tot rep = rep_dup rep + Sample.sum (rep_ins rep)
    /\ rep_dup rep <= len out <= rep_dup rep + len urandom_a
    /\ rep_tot rep <> 0
    /\ rep_pct rep
       = (inject_Z 100 * inject_Z (rep_dup rep) / inject_Z (rep_tot rep))%Q
    /\ getlen (default_str (getarg ["modfile"; "2"; "3"; "1"]%string 1 None))
       = Return (rep_clen rep)
    /\ getlen (default_str
                 (getarg ["modfile"; "2"; "3"; "1"]%string 2
                    (getarg ["modfile"; "2"; "3"; "1"]%string 1 None)))
       = Return (rep_ilen rep)
    /\ getlen (default_str
                 (getarg ["modfile"; "2"; "3"; "1"]%string 3
                    (getarg ["modfile"; "2"; "3"; "1"]%string 2
                       (getarg ["modfile"; "2"; "3"; "1"]%string 1 None))))
       = Return (rep_dlen rep)
    /\ rep_seed rep = 1.
Proof.
  eexists. eexists. split; [vm_compute; reflexivity|].
  apply (main_report_accounts_for_input Toy.float Toy.fdiv_one
           Toy.int_of_float Toy.Rng Toy.Random Toy.expovariate
           13 ["modfile"; "2"; "3"; "1"]%string content urandom_a).
  vm_compute. reflexivity.
Defined.

Lemma main_length_defaults_witness :
  exists (out : bytes) (rep : report),
    main 13 ["modfile"; "2"; "3"]%string content urandom_a
    = Some (out, Return rep)
    /\ getlen "2" = Return (rep_clen rep)
    /\ getlen "3" = Return (rep_ilen rep)
    /\ rep_dlen rep = rep_ilen rep.
Proof.
  eexists. eexists. split; [vm_compute; reflexivity|].
  eapply (proj2 (proj2 (proj2
           (main_length_defaults Toy.float Toy.fdiv_one
              Toy.int_of_float Toy.Rng Toy.Random Toy.expovariate
              13 "modfile" "2" "3" "" [] content urandom_a)))).
  vm_compute. reflexivity.
Defined.

Lemma report_after_a_cycle_witness :
  init content urandom_a 2 (Some 3) (Some 1) None = Return (gen urandom_a)
  /\ recorded 1 (gen urandom_a) <> []
  /\ Forall (fun r => 0 <= ins_of r) (recorded 1 (gen urandom_a))
  /\ exists rep : report,
       str (snd (calls 1 (gen urandom_a))) = Return rep
       /\ 1 <= rep_dup rep <= rep_tot rep
       /\ (0 < rep_pct rep)%Q /\ (rep_pct rep <= inject_Z 100)%Q.
Proof.
  split; [reflexivity|].
  split; [discriminate|].
  split; [repeat constructor; discriminate|].
  apply (report_after_a_cycle Toy.float Toy.fdiv_one
           Toy.int_of_float Toy.Rng Toy.Random Toy.expovariate
           content urandom_a 2 (Some 3) (Some 1) None (gen urandom_a) 1);
    [reflexivity|discriminate|repeat constructor; discriminate].
Defined.

Lemma getlen_by_last_character_witness :
  char_in "k" "kK" = true
  /\ getlen ("12" ++ "k") = (n <- int_of_str "12" ;; Return (n * 1024))
  /\ char_in "M" "mM" = true
  /\ getlen ("1x" ++ "M")
     = (n <- int_of_str "1x" ;; Return (n * 1024 * 1024))
  /\ char_in "g" "gG" = true
  /\ getlen ("3" ++ "g")
     = (n <- int_of_str "3" ;; Return (n * 1024 * 1024 * 1024))
  /\ char_in "G" "kKmMgG" = true
  /\ getlen "G" = Raise ValueError
  /\ char_in "b" "kKmMgG" = false
  /\ getlen ("12" ++ "b") = int_of_str ("12" ++ "b").
Proof.
  split; [reflexivity|]. split.
  { apply (proj1 (proj2 (getlen_by_last_character "12" "k"))).
    reflexivity. }
  split; [reflexivity|]. split.
  { apply (proj1 (proj2 (proj2 (getlen_by_last_character "1x" "M")))).
    reflexivity. }
  split; [reflexivity|]. split.
  { apply (proj1 (proj2 (proj2 (proj2
             (getlen_by_last_character "3" "g"))))).
    reflexivity. }
  split; [reflexivity|]. split.
  { apply (proj1 (proj2 (proj2 (proj2 (proj2
             (getlen_by_last_character "" "G")))))).
    reflexivity. }
  split; [reflexivity|].
  apply (proj2 (proj2 (proj2 (proj2 (proj2
           (getlen_by_last_character "12" "b")))))).
  reflexivity.
Defined.

Lemma zero_insert_mean_only_deletes_witness :
  init content urandom_a 2 (Some 0) (Some 1) None = Return gen_ins_off
  /\ exists (out : bytes) (f : ModifiedFileData Toy.float Toy.Rng),
       run_from gen_ins_off = Some (out, f)
       /\ subseq out content
       /\ ins f = urandom_a
       /\ len out = dup_c f
       /\ len out + Sample.sum (delstats f) = len content.
Proof.
  split; [reflexivity|].
  apply (zero_insert_mean_only_deletes Toy.float Toy.fdiv_one
           Toy.int_of_float Toy.Rng Toy.Random Toy.expovariate
           content urandom_a 2 (Some 1) None gen_ins_off).
  reflexivity.
Defined.

Lemma chunk_size_bound_witness :
  1 <= cpy_n (gen urandom_a) /\ 0 <= ins_n (gen urandom_a)
  /\ 0 <= del_n (gen urandom_a)
  /\ len (fst (getdata (gen urandom_a)))
     <= cpy_n (gen urandom_a) + ins_n (gen urandom_a)
  /\ dup_c (snd (getdata (gen urandom_a))) - dup_c (gen urandom_a)
     <= cpy_n (gen urandom_a)
  /\ len (dat (gen urandom_a)) - len (dat (snd (getdata (gen urandom_a))))
     <= cpy_n (gen urandom_a) + del_n (gen urandom_a).
Proof.
  split; [discriminate|]. split; [discriminate|]. split; [discriminate|].
  apply (chunk_size_bound Toy.float Toy.int_of_float Toy.Rng
           Toy.expovariate (gen urandom_a)); discriminate.
Defined.

Local Abbreviation init_checked :=
  (init_checked Toy.float Toy.fdiv_one Toy.int_of_float Toy.Rng Toy.Random
                Toy.expovariate).
Local Abbreviation getdata_checked :=
  (getdata_checked Toy.float Toy.int_of_float Toy.Rng Toy.expovariate).
Local Abbreviation means_ok :=
  (means_ok Toy.float Toy.fdiv_one Toy.int_of_float Toy.Rng Toy.expovariate).
Local Abbreviation in_range :=
  (in_range Toy.float Toy.fdiv_one Toy.int_of_float Toy.Rng Toy.expovariate).

(** The sampler of [Toy] draws [(state mod 5) * x] for a mean [x]. *)
Lemma toy_sampler_fits (x : Z) :
  0 < x <= 2 ^ 60 ->
  sampler_fits Toy.float Toy.fdiv_one Toy.int_of_float Toy.Rng
               Toy.expovariate x.
Proof.
  intros H r.
  unfold Toy.expovariate, Toy.fdiv_one, Toy.int_of_float, ssize_max.
  cbn [fst]. destruct x as [|p|p]; try lia.
  pose proof (Z.mod_pos_bound r 5 ltac:(lia)) as B.
  unfold Qdiv, Qmult, Qinv, inject_Z. cbn [Qnum Qden].
  change (1 * 1) with 1. cbn [Qnum Qden].
  rewrite !Pos.mul_1_l, Z.quot_1_r. nia.
Qed.

Lemma toy_mean_ok (x : Z) :
  0 < x <= 2 ^ 60 ->
  mean_ok Toy.float Toy.fdiv_one Toy.int_of_float Toy.Rng Toy.expovariate x.
Proof.
  intros H. split; [|now apply toy_sampler_fits].
  split; [lia|]. apply Z.le_lt_trans with (2 ^ 60); [lia|reflexivity].
Qed.

Lemma toy_means_ok_2_3_1 : means_ok 2 3 1.
Proof.
  split; [|split; right]; apply toy_mean_ok; split;
    solve [reflexivity | discriminate].
Qed.

Lemma gen_in_range (urandom : stream) : in_range (gen urandom).
Proof.
  split.
  - split; [reflexivity|]. split; [reflexivity|]. split; [reflexivity|].
    exact toy_means_ok_2_3_1.
  - cbn [cpy_n ins_n del_n gen]. unfold ssize_max. lia.
Qed.

(** A copy mean of [2^1024] is positive but does not convert to a float:
    the constructor raises and no call of [getdata] is made.  With a copy
    mean of 2 and an insert mean of [-3] the constructor returns, the first
    insert length is [-12], and the first call of [getdata] raises. *)
Lemma large_or_negative_mean_raises :
  0 < 2 ^ 1024 /\ content <> []
  /\ init_checked content urandom_a (2 ^ 1024) None None None
     = Raise OverflowError
  /\ 0 < 2
  /\ exists g : ModifiedFileData Toy.float Toy.Rng,
       init_checked content urandom_a 2 (Some (-3)) (Some 1) None = Return g
       /\ ins_n g = -12
       /\ getdata_checked g = Raise ValueError.
Proof.
  split; [reflexivity|]. split; [discriminate|].
  split; [vm_compute; reflexivity|]. split; [reflexivity|].
  eexists. split; [vm_compute; reflexivity|].
  split; vm_compute; reflexivity.
Qed.

Lemma getdata_reaches_end_of_stream_witness :
  0 < 2 /\ content <> []
  /\ means_ok 2 (default (Some 3) 2) (default (Some 1) 2)
  /\ exists g0 : ModifiedFileData Toy.float Toy.Rng,
       init_checked content urandom_a 2 (Some 3) (Some 1) None = Return g0
       /\ (forall k : nat,
             getdata_checked (snd (calls k g0))
             = Return (getdata (snd (calls k g0))))
       /\ (forall k : nat, 1 <= cpy_n (snd (calls k g0)))
       /\ (forall k : nat,
             fst (getdata (snd (calls k g0))) <> [] ->
             (List.length (dat (snd (calls (S k) g0)))
              < List.length (dat (snd (calls k g0))))%nat)
       /\ exists n : nat,
            (n <= List.length content)%nat
            /\ fst (getdata (snd (calls n g0))) = []
            /\ dat (snd (calls n g0)) = [].
Proof.
  split; [reflexivity|]. split; [discriminate|].
  split; [exact toy_means_ok_2_3_1|].
  apply (getdata_reaches_end_of_stream Toy.float Toy.fdiv_one
           Toy.int_of_float Toy.Rng Toy.Random Toy.expovariate
           content urandom_a 2 (Some 3) (Some 1) None);
    [reflexivity|discriminate|exact toy_means_ok_2_3_1].
Defined.



Lemma run_is_the_chunks_until_empty_witness :
  in_range (gen urandom_a)
  /\ exists n : nat,
       (n <= List.length (dat (gen urandom_a)))%nat
       /\ run_from (gen urandom_a)
          = Some (List.concat (fst (calls n (gen urandom_a))),
                  snd (calls n (gen urandom_a)))
       /\ Forall (fun chunk => chunk <> []) (fst (calls n (gen urandom_a)))
       /\ fst (getdata (snd (calls n (gen urandom_a)))) = []
       /\ (forall k : nat,
             getdata_checked (snd (calls k (gen urandom_a)))
             = Return (getdata (snd (calls k (gen urandom_a)))))
       /\ forall k : nat,
            copy_loop Toy.float Toy.int_of_float Toy.Rng Toy.expovariate
                      (S (List.length (dat (gen urandom_a))) + k)
                      (gen urandom_a) []
            = run_from (gen urandom_a).
Proof.
  split; [exact (gen_in_range urandom_a)|].
  apply (run_is_the_chunks_until_empty Toy.float Toy.fdiv_one
           Toy.int_of_float Toy.Rng Toy.expovariate (gen urandom_a)).
  exact (gen_in_range urandom_a).
Defined.

Lemma constructor_contract_witness :
  (float_limit <= Z.abs (2 ^ 1024)
   /\ init_checked content urandom_a (2 ^ 1024) None None None
      = Raise OverflowError)
  /\ init_checked content urandom_a 0 (Some 3) None None
     = Raise ZeroDivisionError
  /\ (float_limit <= Z.abs (default (Some (2 ^ 1024)) 2)
      /\ init_checked content urandom_a 2 (Some (2 ^ 1024)) None None
         = Raise OverflowError)
  /\ (float_limit <= Z.abs (default (Some (- 2 ^ 1024)) 2)
      /\ init_checked content urandom_a 2 (Some 0) (Some (- 2 ^ 1024)) None
         = Raise OverflowError)
  /\ means_ok 2 (default (Some 3) 2) (default None 2)
  /\ exists g0 : ModifiedFileData Toy.float Toy.Rng,
       init_checked content urandom_a 2 (Some 3) None None = Return g0
       /\ dat g0 = content /\ ins g0 = urandom_a
       /\ clen g0 = 2 /\ ilen g0 = default (Some 3) 2
       /\ dlen g0 = default None 2
       /\ seed g0 = default None 1
       /\ cpystats g0 = Sample.new /\ insstats g0 = Sample.new
       /\ delstats g0 = Sample.new
       /\ 1 <= cpy_n g0 <= ssize_max
       /\ 0 <= ins_n g0 <= ssize_max
       /\ 0 <= del_n g0 <= ssize_max
       /\ (ilen g0 = 0 -> ins_n g0 = 0)
       /\ (dlen g0 = 0 -> del_n g0 = 0).
Proof.
  assert (M : means_ok 2 (default (Some 3) 2) (default None 2)).
  { split; [|split; right]; apply toy_mean_ok; split;
      solve [reflexivity | discriminate]. }
  split; [split; [vm_compute; discriminate|]|].
  { apply (proj1 (constructor_contract Toy.float Toy.fdiv_one
                    Toy.int_of_float Toy.Rng Toy.Random Toy.expovariate
                    content urandom_a (2 ^ 1024) None None None)).
    vm_compute; discriminate. }
  split.
  { apply (proj1 (proj2 (constructor_contract Toy.float Toy.fdiv_one
                    Toy.int_of_float Toy.Rng Toy.Random Toy.expovariate
                    content urandom_a 0 (Some 3) None None))).
    reflexivity. }
  split; [split; [vm_compute; discriminate|]|].
  { apply (proj1 (proj2 (proj2 (constructor_contract Toy.float Toy.fdiv_one
                    Toy.int_of_float Toy.Rng Toy.Random Toy.expovariate
                    content urandom_a 2 (Some (2 ^ 1024)) None None))));
      [discriminate | reflexivity | vm_compute; discriminate]. }
  split; [split; [vm_compute; discriminate|]|].
  { apply (proj1 (proj2 (proj2 (proj2
             (constructor_contract Toy.float Toy.fdiv_one
                Toy.int_of_float Toy.Rng Toy.Random Toy.expovariate
                content urandom_a 2 (Some 0) (Some (- 2 ^ 1024)) None)))));
      [discriminate | reflexivity | reflexivity | vm_compute; discriminate]. }
  split; [exact M|].
  exact (proj2 (proj2 (proj2 (proj2
           (constructor_contract Toy.float Toy.fdiv_one
              Toy.int_of_float Toy.Rng Toy.Random Toy.expovariate
              content urandom_a 2 (Some 3) None None)))) M).
Defined.

(** The command line [modfile 2 3 1]. *)
Definition argv_2_3_1 : list string :=
  ["modfile"; "2"; "3"; "1"]%string.

Lemma main_ends_witness :
  (forall c i d : Z,
      getlen (default_str (getarg argv_2_3_1 1 None))
      = Return c ->
      getlen (default_str
                (getarg argv_2_3_1 2
                        (getarg argv_2_3_1 1 None)))
      = Return i ->
      getlen (default_str
                (getarg argv_2_3_1 3
                   (getarg argv_2_3_1 2
                      (getarg argv_2_3_1 1 None))))
      = Return d ->
      c = 0 \/ means_ok c i d)
  /\ (exists r : bytes * outcome report,
        main (S (List.length content)) argv_2_3_1
             content urandom_a = Some r
        /\ forall k : nat,
             main (S (List.length content) + k) argv_2_3_1
                  content urandom_a = Some r)
  /\ init_checked content urandom_a 2 (Some 3) (Some 1) None
     = Return (gen urandom_a)
  /\ forall k : nat,
       getdata_checked (snd (calls k (gen urandom_a)))
       = Return (getdata (snd (calls k (gen urandom_a)))).
Proof.
  assert (H : forall c i d : Z,
             getlen (default_str (getarg argv_2_3_1 1 None))
             = Return c ->
             getlen (default_str
                       (getarg argv_2_3_1 2
                               (getarg argv_2_3_1 1 None)))
             = Return i ->
             getlen (default_str
                       (getarg argv_2_3_1 3
                          (getarg argv_2_3_1 2
                             (getarg argv_2_3_1 1 None))))
             = Return d ->
             c = 0 \/ means_ok c i d).
  { intros c i d Hc Hi Hd. vm_compute in Hc, Hi, Hd.
    injection Hc as <-. injection Hi as <-. injection Hd as <-.
    right. exact toy_means_ok_2_3_1. }
  split; [exact H|].
  destruct (main_ends Toy.float Toy.fdiv_one Toy.int_of_float Toy.Rng
              Toy.Random Toy.expovariate
              argv_2_3_1 content urandom_a H) as [E C].
  split; [exact E|].
  exact (C 2 3 1 (gen urandom_a) eq_refl eq_refl eq_refl eq_refl).
Defined.

End Worked.
